(** * Wasatch.VCPP: the spectrometer session and its flattened C surface

    A shallow embedding of [Spectrometer.cpp] and [WasatchVCPPWrapper.cpp].

    - C integers are [Z]; a conversion to a fixed width is written out
      ([uint8], [uint16], [uint32], [int32]).
    - The USB device handle is a value: the transfers performed so far and
      the replies the device will still give.  Every [usb_control_msg] and
      [usb_bulk_read] appends to the first and consumes from the second.
    - A method of [Spectrometer] is a state transformer over the object.
    - Logging has no influence on results and is left out. *)

From Stdlib Require Import ZArith QArith Qround Lia Lqa String Ascii.
From stdpp Require Import base option list pretty.

Local Open Scope Z_scope.

(* ===================================================================== *)
(** ** Fixed-width integers *)
(* ===================================================================== *)

Definition uint8 (z : Z) : Z := z mod 2 ^ 8.
Definition uint16 (z : Z) : Z := z mod 2 ^ 16.
Definition uint32 (z : Z) : Z := z mod 2 ^ 32.
Definition int32 (z : Z) : Z := (z + 2 ^ 31) mod 2 ^ 32 - 2 ^ 31.

(* ===================================================================== *)
(** ** Result codes of the C surface (WasatchVCPP.h) *)
(* ===================================================================== *)

Definition WP_SUCCESS : Z := 0.
Definition WP_ERROR : Z := -1.
Definition WP_ERROR_INVALID_SPECTROMETER : Z := -2.
Definition WP_ERROR_INSUFFICIENT_STORAGE : Z := -3.
Definition WP_ERROR_NO_LASER : Z := -4.

(* ===================================================================== *)
(** ** Constants of Spectrometer.cpp *)
(* ===================================================================== *)

Definition HOST_TO_DEVICE : Z := 0x40.
Definition DEVICE_TO_HOST : Z := 0xC0.
Definition MIN_ARM_LEN : Z := 8.
Definition MAX_UINT24 : Z := 16777216.

(* ===================================================================== *)
(** ** The transport (libusb-win32), seen from the driver *)
(* ===================================================================== *)

(** What the device answers to one transfer: an error, or bytes.  For a
    host-to-device transfer the bytes of a [UsbData] reply are ignored and
    stand for "accepted". *)
Inductive usb_reply :=
| UsbError (errno : positive)
| UsbData (bytes : list Z).

(** The arguments of one [usb_control_msg] call.  [cm_bytes] is the buffer
    handed over: [None] is the null pointer. *)
Record control_msg := {
  cm_requesttype : Z;
  cm_request : Z;
  cm_value : Z;
  cm_index : Z;
  cm_bytes : option (list Z);
  cm_size : Z;
  cm_timeout : Z
}.

(** The arguments of one [usb_bulk_read] call. *)
Record bulk_msg := {
  bm_ep : Z;
  bm_size : Z;
  bm_timeout : Z
}.

Inductive transfer :=
| Control (m : control_msg)
| BulkRead (m : bulk_msg).

(** [transfers]: every transfer attempted on the handle, oldest first.
    [replies]: what the device answers to the coming transfers, in order. *)
Record usb_dev_handle := {
  transfers : list transfer;
  replies : list usb_reply
}.

(** A device that has nothing more to say lets the transfer time out. *)
Definition ETIMEDOUT : positive := 116.

Definition usb_exchange (t : transfer) (d : usb_dev_handle)
  : usb_reply * usb_dev_handle :=
  match replies d with
  | [] => (UsbError ETIMEDOUT, {| transfers := transfers d ++ [t]; replies := [] |})
  | r :: rs => (r, {| transfers := transfers d ++ [t]; replies := rs |})
  end.

(** Bytes received land at the start of the caller's buffer. *)
Definition overwrite (got buf : list Z) : list Z :=
  got ++ drop (length got) buf.

(** [usb_control_msg]: negative on error; otherwise the number of bytes
    transferred, never more than [size].  Bit 7 of the request type is the
    direction (set: device to host). *)
Definition usb_control_msg (d : usb_dev_handle)
    (requesttype request value index : Z) (bytes : option (list Z))
    (size timeout : Z) : Z * option (list Z) * usb_dev_handle :=
  let m := {| cm_requesttype := requesttype; cm_request := request;
              cm_value := value; cm_index := index; cm_bytes := bytes;
              cm_size := size; cm_timeout := timeout |} in
  let '(r, d') := usb_exchange (Control m) d in
  match r with
  | UsbError e => (Z.neg e, bytes, d')
  | UsbData rx =>
      if Z.testbit requesttype 7 then
        let got := take (Z.to_nat size) rx in
        (Z.of_nat (length got), overwrite got <$> bytes, d')
      else (size, bytes, d')
  end.

(** [usb_bulk_read]: negative on error; otherwise the number of bytes read
    into [buf], never more than [size]. *)
Definition usb_bulk_read (d : usb_dev_handle) (ep : Z) (buf : list Z)
    (size timeout : Z) : Z * list Z * usb_dev_handle :=
  let m := {| bm_ep := ep; bm_size := size; bm_timeout := timeout |} in
  let '(r, d') := usb_exchange (BulkRead m) d in
  match r with
  | UsbError e => (Z.neg e, buf, d')
  | UsbData rx =>
      let got := take (Z.to_nat size) rx in
      (Z.of_nat (length got), overwrite got buf, d')
  end.

(* ===================================================================== *)
(** ** Floating point *)
(* ===================================================================== *)

(** The calibration polynomials are evaluated in C [float] arithmetic.  The
    driver's control flow does not depend on how that arithmetic rounds, so
    the operations are an interface. *)
Class FloatOps (float : Type) := {
  (** conversion of an [int] to [float] *)
  of_int : Z -> float;
  fadd : float -> float -> float;
  fmul : float -> float -> float;
  (** [(uint16_t)(x + 0.5)] *)
  round_u16 : float -> Z
}.

(** C's conversion of a floating value to an integer type drops the
    fraction: it rounds toward zero. *)
Definition cast_int (x : Q) : Z := Z.quot (Qnum x) (Z.pos (Qden x)).

(** Arithmetic without rounding error, for running the model on examples.  It
    gives what C [float] arithmetic gives wherever no operation of the
    polynomial rounds, as with the whole-number setpoint coefficients and
    temperatures of the sample records below; [round_u16] drops the fraction
    of [x + 0.5] as the cast to [uint16_t] does. *)
#[export] Instance Q_FloatOps : FloatOps Q := {
  of_int := inject_Z;
  fadd := Qplus;
  fmul := Qmult;
  round_u16 := fun x => uint16 (cast_int (x + (1 # 2))%Q)
}.

(** A C [float] as the gain settors receive it: a finite value, taken as the
    rational it denotes, an infinity, or a NaN. *)
Inductive c_float :=
| Finite (q : Q)
| PlusInfinity
| MinusInfinity
| NaN.

Coercion Finite : Q >-> c_float.

(** [x < c] and [x >= c] for a finite constant [c].  Every comparison with a
    NaN is false. *)
Definition float_lt (x : c_float) (c : Q) : bool :=
  match x with
  | Finite q => negb (Qle_bool c q)
  | PlusInfinity => false
  | MinusInfinity => true
  | NaN => false
  end.

Definition float_ge (x : c_float) (c : Q) : bool :=
  match x with
  | Finite q => Qle_bool c q
  | PlusInfinity => true
  | MinusInfinity => false
  | NaN => false
  end.

(** [x - n] and [x * c] for an integer [n] and a finite constant [c], on the
    values the settors compute with: none of them rounds there, and an
    infinity or a NaN stays what it is. *)
Definition float_sub (x : c_float) (n : Z) : c_float :=
  match x with
  | Finite q => Finite (q - inject_Z n)
  | other => other
  end.

Definition float_mul (x : c_float) (c : Q) : c_float :=
  match x with
  | Finite q => Finite (q * c)
  | other => other
  end.

(** [(int)x].  C leaves the conversion of an infinity or a NaN undefined; the
    conversion instruction of the x86 processors this library is built for
    gives the smallest [int]. *)
Definition float_to_int (x : c_float) : Z :=
  match x with
  | Finite q => cast_int q
  | _ => - 2 ^ 31
  end.

(* ===================================================================== *)
(** ** The objects *)
(* ===================================================================== *)

Section Objects.
Context {float double : Type}.

(** The fields of [EEPROM] that the session and the C surface read.  The
    class itself is declared outside the sources; the temperature limits are
    integers and the coefficients floats, as the calibration layout has
    them.  Of [excitationNM] only the sign is read. *)
Record EEPROM := {
  model : string;
  serialNumber : string;
  excitationNM : Q;
  hasCooling : bool;
  minTemperatureDegC : Z;
  maxTemperatureDegC : Z;
  degCToDACCoeffs : float * float * float;
  adcToDegCCoeffs : float * float * float;
  (** [std::map<string, string>], in iteration (key) order *)
  stringified : list (string * string)
}.

Record Spectrometer := {
  udev : usb_dev_handle;
  pid : Z;
  eeprom : EEPROM;
  pixels : Z;
  wavelengths : list double;
  wavenumbers : list double;
  integrationTimeMS : Z;
  laserEnabled : bool;
  detectorTECSetpointHasBeenSet : bool
}.

Definition set_udev (d : usb_dev_handle) (s : Spectrometer) : Spectrometer :=
  {| udev := d; pid := pid s; eeprom := eeprom s; pixels := pixels s;
     wavelengths := wavelengths s; wavenumbers := wavenumbers s;
     integrationTimeMS := integrationTimeMS s; laserEnabled := laserEnabled s;
     detectorTECSetpointHasBeenSet := detectorTECSetpointHasBeenSet s |}.

Definition set_integrationTimeMS (ms : Z) (s : Spectrometer) : Spectrometer :=
  {| udev := udev s; pid := pid s; eeprom := eeprom s; pixels := pixels s;
     wavelengths := wavelengths s; wavenumbers := wavenumbers s;
     integrationTimeMS := ms; laserEnabled := laserEnabled s;
     detectorTECSetpointHasBeenSet := detectorTECSetpointHasBeenSet s |}.

Definition set_laserEnabled (b : bool) (s : Spectrometer) : Spectrometer :=
  {| udev := udev s; pid := pid s; eeprom := eeprom s; pixels := pixels s;
     wavelengths := wavelengths s; wavenumbers := wavenumbers s;
     integrationTimeMS := integrationTimeMS s; laserEnabled := b;
     detectorTECSetpointHasBeenSet := detectorTECSetpointHasBeenSet s |}.

Definition set_detectorTECSetpointHasBeenSet (b : bool) (s : Spectrometer)
  : Spectrometer :=
  {| udev := udev s; pid := pid s; eeprom := eeprom s; pixels := pixels s;
     wavelengths := wavelengths s; wavenumbers := wavenumbers s;
     integrationTimeMS := integrationTimeMS s; laserEnabled := laserEnabled s;
     detectorTECSetpointHasBeenSet := b |}.

(** A method: it returns a value and leaves the object in a new state. *)
Definition method (A : Type) : Type := Spectrometer -> A * Spectrometer.

Definition ret {A} (a : A) : method A := fun s => (a, s).

Definition bind {A B} (m : method A) (k : A -> method B) : method B :=
  fun s => let '(a, s') := m s in k a s'.

Definition get_this : method Spectrometer := fun s => (s, s).

Definition modify (f : Spectrometer -> Spectrometer) : method unit :=
  fun s => (tt, f s).

End Objects.

Arguments EEPROM : clear implicits.
Arguments Spectrometer : clear implicits.
Arguments method : clear implicits.

Declare Scope method_scope.
Delimit Scope method_scope with method.
Notation "x <- c ;; k" := (bind c (fun x => k))
  (at level 100, c at next level, right associativity) : method_scope.
Notation "c ;;; k" := (bind c (fun _ => k))
  (at level 100, right associativity) : method_scope.

Local Open Scope method_scope.

(* ===================================================================== *)
(** ** Spectrometer.cpp *)
(* ===================================================================== *)

(** What a C++ function body hands back: the operand of the [return] it
    reached, or nothing when control runs off the end of the body ([computed]
    is the value the body had in hand at that point). *)
Inductive returned (A : Type) :=
| Return (a : A)
| NoReturn (computed : A).
Arguments Return {A} a.
Arguments NoReturn {A} computed.

(** What [getSpectrum] does: it returns a vector, or indexes the vector past
    its end ([spectrum] is the vector at that point), or its read loop is cut
    off by the model's iteration bound. *)
Inductive acquisition :=
| Spectrum (spectrum : list Z)
| IndexPastEnd (spectrum : list Z)
| LoopCutOff.

(** The pixels of a byte sequence, as the inner loop of [getSpectrum] takes
    them: [for (i = 0; i + 1 < bytesRead; i += 2)], each
    [buf[i] | (buf[i + 1] << 8)] converted to [uint16_t]. *)
Fixpoint decode_pixels (bytes : list Z) : list Z :=
  match bytes with
  | lo :: hi :: rest => uint16 (Z.lor lo (Z.shiftl hi 8)) :: decode_pixels rest
  | _ => []
  end.

Section Methods.
Context {float double : Type} `{FloatOps float}.

(** The length [getCmd] asks for when the caller names none: a default
    argument declared in Spectrometer.h, which is not part of the sources. *)
Variable getCmd_default_len : Z.

Local Abbreviation Spectrometer := (Spectrometer float double).
Local Abbreviation method := (method float double).

Definition isARM (s : Spectrometer) : bool := pid s =? 0x4000.

Definition isInGaAs (s : Spectrometer) : bool := pid s =? 0x2000.

(** [isSuccess]: the body is [return true]. *)
Definition isSuccess (opcode : Z) (result : Z) : bool := true.

Definition clamp (value min max : Z) : Z :=
  if value <? min then min
  else if value >? max then max
  else value.

(** [sendCmd(request, value, index, data, len)].  Callers that leave
    arguments out get the defaults declared in Spectrometer.h (absent from
    the sources): value 0, index 0, a null [data], length 0. *)
Definition sendCmd (request value index : Z) (data : option (list Z)) (len : Z)
  : method Z :=
  this <- get_this ;;
  let buf := replicate (Z.to_nat MIN_ARM_LEN) 0 in
  let '(data, len) :=
    if bool_decide (data = None) && isARM this
    then (Some buf, MIN_ARM_LEN) else (data, len) in
  let timeoutMS := 1000 in
  let '(result, _, d) :=
    usb_control_msg (udev this) HOST_TO_DEVICE request value index data len
      timeoutMS in
  modify (set_udev d) ;;;
  ret result.

Definition getCmd (request value index len : Z) : method (list Z) :=
  this <- get_this ;;
  let len := if isARM this then Z.max MIN_ARM_LEN len else len in
  let data := replicate (Z.to_nat len) 0 in
  let timeoutMS := 1000 in
  let '(result, data, d) :=
    usb_control_msg (udev this) DEVICE_TO_HOST request value index (Some data)
      len timeoutMS in
  modify (set_udev d) ;;;
  ret (take (Z.to_nat result) (default [] data)).

Definition setIntegrationTimeMS (ms : Z) : method bool :=
  let ms := clamp ms 1 (MAX_UINT24 - 1) in
  let lsw := uint16 (Z.land ms 0xffff) in
  let msw := uint16 (Z.land (Z.shiftr ms 16) 0x00ff) in
  result <- sendCmd 0xb2 lsw msw None 0 ;;
  modify (set_integrationTimeMS ms) ;;;
  ret (isSuccess 0xb2 result).

Definition setLaserEnable (flag : bool) : method bool :=
  result <- sendCmd 0xbe (if flag then 1 else 0) 0 None 0 ;;
  modify (set_laserEnabled flag) ;;;
  ret (isSuccess 0xbe result).

(** The 16-bit word both gain settors build.  [value] is a C [float]; on a
    finite value every operation here (dropping the fraction, subtracting the
    integer part, scaling by 256) is exact in binary floating point. *)
Definition gain_word (value : c_float) : Z :=
  let msb := uint8 (Z.land (float_to_int value) 0xff) in
  let lsb :=
    uint8 (Z.land (float_to_int (float_mul (float_sub value msb) 256)) 0xff) in
  uint16 (Z.lor (Z.shiftl msb 8) lsb).

(** The guard [value < 0 || value >= 256] of both gain settors.  A NaN
    compares false both ways and passes it. *)
Definition gain_rejected (value : c_float) : bool :=
  float_lt value 0 || float_ge value 256.

Definition setDetectorGain (value : c_float) : method bool :=
  let op := 0xb7 in
  if gain_rejected value then ret false
  else
    let word := gain_word value in
    result <- sendCmd op word 0 None 0 ;;
    ret (isSuccess op result).

Definition setDetectorGainOdd (value : c_float) : method bool :=
  let op := 0x9d in
  if gain_rejected value then ret false
  else
    let word := gain_word value in
    result <- sendCmd op word 0 None 0 ;;
    ret (isSuccess op result).

(** The source reads the [int16_t] argument through a pointer to [uint16_t]:
    the 16 bits that store it, read as an unsigned number. *)
Definition reinterpret_uint16 (value : Z) : Z := Z.land value 0xffff.

Definition setDetectorOffset (value : Z) : method bool :=
  let op := 0xb6 in
  let word := reinterpret_uint16 value in
  result <- sendCmd op word 0 None 0 ;;
  ret (isSuccess op result).

Definition setDetectorOffsetOdd (value : Z) : method bool :=
  let op := 0x9c in
  let word := reinterpret_uint16 value in
  result <- sendCmd op word 0 None 0 ;;
  ret (isSuccess op result).

(** [c0 + c1 * x + c2 * x * x], in C's order of evaluation. *)
Definition poly2 (c : float * float * float) (x : Z) : float :=
  let '(c0, c1, c2) := c in
  fadd (fadd c0 (fmul c1 (of_int x))) (fmul (fmul c2 (of_int x)) (of_int x)).

Definition setDetectorTECSetpointDegC (degC : Z) : method bool :=
  let op := 0xd8 in
  this <- get_this ;;
  if negb (hasCooling (eeprom this)) then ret false
  else if (degC <? minTemperatureDegC (eeprom this))
          || (degC >? maxTemperatureDegC (eeprom this)) then ret false
  else
    let dac := poly2 (degCToDACCoeffs (eeprom this)) degC in
    let word := Z.land (round_u16 dac) 0xfff in
    result <- sendCmd op word 0 None 0 ;;
    modify (set_detectorTECSetpointHasBeenSet true) ;;;
    ret (isSuccess op result).

Definition setTECEnable (flag : bool) : method bool :=
  let op := 0xd6 in
  this <- get_this ;;
  if negb (hasCooling (eeprom this)) then ret false
  else
    (if negb (detectorTECSetpointHasBeenSet this)
     then setDetectorTECSetpointDegC (minTemperatureDegC (eeprom this)) ;;; ret tt
     else ret tt) ;;;
    result <- sendCmd op (if flag then 1 else 0) 0 None 0 ;;
    ret (isSuccess op result).

Definition setHighGainMode (flag : bool) : method bool :=
  let op := 0xeb in
  this <- get_this ;;
  if negb (isInGaAs this) then ret false
  else
    result <- sendCmd op (if flag then 1 else 0) 0 None 0 ;;
    ret (isSuccess op result).

Definition getDetectorTemperatureRaw : method Z :=
  let op := 0xd7 in
  data <- getCmd op 0 0 getCmd_default_len ;;
  match data with
  | d0 :: d1 :: _ => ret (uint16 (Z.lor (Z.shiftl d0 8) d1))
  | _ => ret (-1)
  end.

(** [getDetectorTemperatureDegC].  The local [raw] is initialised from
    itself ([uint16_t raw = (uint16_t) raw;]), so what it holds is whatever
    the stack held: [indeterminate].  The body ends after the log call,
    without a [return]. *)
Definition getDetectorTemperatureDegC (indeterminate : Z)
  : method (returned float) :=
  rawOrError <- getDetectorTemperatureRaw ;;
  if rawOrError <? 0 then ret (Return (of_int (-999)))
  else
    this <- get_this ;;
    let raw := uint16 indeterminate in
    let degC := poly2 (adcToDegCCoeffs (eeprom this)) raw in
    ret (NoReturn degC).

Definition generateTimeoutMS : method Z :=
  this <- get_this ;;
  ret (int32 (uint32 (2 * integrationTimeMS this + 2000))).

Definition bulk_read (ep : Z) (buf : list Z) (size timeout : Z)
  : method (Z * list Z) :=
  this <- get_this ;;
  let '(bytesRead, buf, d) := usb_bulk_read (udev this) ep buf size timeout in
  modify (set_udev d) ;;;
  ret (bytesRead, buf).

(** The [while (totalBytesRead < bytesExpected)] loop of [getSpectrum];
    [fuel] bounds the number of iterations, [None] says the bound was hit. *)
Fixpoint getSpectrum_loop (fuel : nat) (ep bytesExpected timeoutMS : Z)
    (totalBytesRead bytesLeftToRead : Z) (buf spectrum : list Z)
  : method (option (list Z)) :=
  if totalBytesRead <? bytesExpected then
    match fuel with
    | O => ret None
    | S fuel =>
        r <- bulk_read ep buf bytesLeftToRead timeoutMS ;;
        let '(bytesRead, buf) := r in
        if bytesRead <=? 0 then ret (Some spectrum)
        else if negb (Z.rem bytesRead 2 =? 0) then ret (Some spectrum)
        else
          let spectrum :=
            spectrum ++ decode_pixels (take (Z.to_nat bytesRead) buf) in
          getSpectrum_loop fuel ep bytesExpected timeoutMS
            (totalBytesRead + bytesRead) (bytesLeftToRead - bytesRead)
            buf spectrum
    end
  else ret (Some spectrum).

(** [getSpectrum].  The [malloc]ed buffer is read only where a bulk read has
    just written, so its initial content (zeros here) is never seen. *)
Definition getSpectrum : method acquisition :=
  this <- get_this ;;
  sendCmd 0xad 0 0 None 0 ;;;
  let ep := 0x82 in
  let bytesExpected := int32 (pixels this * 2) in
  let totalBytesRead := 0 in
  let bytesLeftToRead := bytesExpected in
  timeoutMS <- generateTimeoutMS ;;
  let buf := replicate (Z.to_nat bytesExpected) 0 in
  r <- getSpectrum_loop (Z.to_nat bytesExpected) ep bytesExpected timeoutMS
         totalBytesRead bytesLeftToRead buf [] ;;
  match r with
  | None => ret LoopCutOff
  | Some [] => ret (Spectrum [])
  | Some spectrum =>
      match spectrum !! 1%nat with
      | Some second => ret (Spectrum (<[0%nat := second]> spectrum))
      | None => ret (IndexPastEnd spectrum)
      end
  end.

Definition set_eeprom (e : EEPROM float) (s : Spectrometer) : Spectrometer :=
  {| udev := udev s; pid := pid s; eeprom := e; pixels := pixels s;
     wavelengths := wavelengths s; wavenumbers := wavenumbers s;
     integrationTimeMS := integrationTimeMS s; laserEnabled := laserEnabled s;
     detectorTECSetpointHasBeenSet := detectorTECSetpointHasBeenSet s |}.

(** The page loop of [readEEPROM]:
    [for (page = 0; page < EEPROM::MAX_PAGES; page++)], each page fetched
    with [getCmd(0xff, 0x01, page, EEPROM::PAGE_SIZE)] and pushed back.
    [n] pages are still to be read, [page] is the next one. *)
Fixpoint readEEPROM_pages (n : nat) (page PAGE_SIZE : Z)
    (pages : list (list Z)) : method (list (list Z)) :=
  match n with
  | O => ret pages
  | S n =>
      buf <- getCmd 0xff 0x01 page PAGE_SIZE ;;
      readEEPROM_pages n (page + 1) PAGE_SIZE (pages ++ [buf])
  end.

(** [readEEPROM].  [EEPROM::MAX_PAGES], [EEPROM::PAGE_SIZE] and
    [EEPROM::parse] belong to a class outside the sources and are
    parameters; [parse] answers whether it succeeded and what the record is
    afterwards. *)
Definition readEEPROM (MAX_PAGES PAGE_SIZE : Z)
    (parse : list (list Z) -> EEPROM float -> bool * EEPROM float)
  : method bool :=
  pages <- readEEPROM_pages (Z.to_nat MAX_PAGES) 0 PAGE_SIZE [] ;;
  this <- get_this ;;
  let '(ok, e) := parse pages (eeprom this) in
  modify (set_eeprom e) ;;;
  if negb ok then ret false else ret true.

(** [(char)c] for a byte. *)
Definition char_of_byte (c : Z) : ascii := ascii_of_N (Z.to_N c).

(** The loop of [getFPGAVersion]: every byte between 0x20 and 0x7f is
    appended to the string, in order. *)
Fixpoint visible_ascii (data : list Z) : string :=
  match data with
  | [] => EmptyString
  | c :: data =>
      if (0x20 <=? c) && (c <=? 0x7f)
      then String (char_of_byte c) (visible_ascii data)
      else visible_ascii data
  end.

(** [getFirmwareVersion] and [getFPGAVersion] pass [flag ? 1 : 0] as the
    transfer's value; [flag] is taken as an argument.  [Util::sprintf] is
    outside the sources and is read as C's [sprintf]: [%d] prints a byte in
    decimal. *)
Definition getFirmwareVersion (flag : bool) : method string :=
  let op := 0xc0 in
  data <- getCmd op (if flag then 1 else 0) 0 getCmd_default_len ;;
  match data with
  | d0 :: d1 :: d2 :: d3 :: _ =>
      ret (pretty d3 +:+ "." +:+ pretty d2 +:+ "." +:+ pretty d1
           +:+ "." +:+ pretty d0)
  | _ => ret EmptyString
  end.

Definition getFPGAVersion (flag : bool) : method string :=
  let op := 0xb4 in
  data <- getCmd op (if flag then 1 else 0) 0 getCmd_default_len ;;
  ret (visible_ascii data).

(** [close]: the interface is released and the handle closed, whatever the
    transport answers; the result is [true].  The two libusb calls are
    parameters: each leaves the handle in some state. *)
Definition close
    (usb_release_interface : usb_dev_handle -> Z -> Z * usb_dev_handle)
    (usb_close : usb_dev_handle -> Z * usb_dev_handle) : method bool :=
  this <- get_this ;;
  let '(_, d) := usb_release_interface (udev this) 0 in
  let '(_, d) := usb_close d in
  modify (set_udev d) ;;;
  ret true.

End Methods.

(* ===================================================================== *)
(** ** WasatchVCPPWrapper.cpp *)
(* ===================================================================== *)

(** The loop shared by [exportString], [wp_get_wavelengths],
    [wp_get_wavenumbers] and [wp_get_spectrum]:
    [for (i = 0; i < src.size(); i++) if (i < len) dst[i] = src[i]; else
    return WP_ERROR_INSUFFICIENT_STORAGE;] followed by
    [return WP_SUCCESS].  [src] is what is left to copy from index [i] on. *)
Fixpoint copy_out {A} (src : list A) (i : nat) (dst : list A) (len : Z)
  : Z * list A :=
  match src with
  | [] => (WP_SUCCESS, dst)
  | c :: src =>
      if Z.of_nat i <? len then copy_out src (S i) (<[i := c]> dst) len
      else (WP_ERROR_INSUFFICIENT_STORAGE, dst)
  end.

(** [memset(buf, c, len)], within the buffer. *)
Definition memset {A} (buf : list A) (c : A) (len : Z) : list A :=
  let n := Z.to_nat len in
  replicate (min n (length buf)) c ++ drop n buf.

Definition exportString (s : string) (buf : list ascii) (len : Z)
  : Z * list ascii :=
  copy_out (list_ascii_of_string s) 0 (memset buf Ascii.zero len) len.

Section Wrapper.
Context {float double : Type} `{FloatOps float}.

Local Abbreviation Spectrometer := (Spectrometer float double).

(** [Util::toLower] and the C runtime's [strncpy_s] are not part of the
    sources.  [strncpy_s dest numberOfElements src count] is [None] when the
    runtime's invalid-parameter handler ends the process, and otherwise the
    destination after the call (the source drops the error code). *)
Variable toLower : string -> string.
Variable strncpy_s : list ascii -> Z -> string -> Z -> option (list ascii).

(** The singleton [Driver]: the sessions it owns, by index. *)
Record Driver := {
  spectrometers : list Spectrometer
}.

(** Modelled from the spec: [Driver::getSpectrometer] is not part of the
    sources (Driver.cpp is absent).  "get(index): bounds-checked lookup;
    out-of-range yields not found". *)
Definition getSpectrometer (driver : Driver) (specIndex : Z)
  : option Spectrometer :=
  if specIndex <? 0 then None
  else spectrometers driver !! Z.to_nat specIndex.

(** The session at [specIndex] replaced by its state after a method ran. *)
Definition put_spectrometer (driver : Driver) (specIndex : Z)
    (s : Spectrometer) : Driver :=
  {| spectrometers := <[Z.to_nat specIndex := s]> (spectrometers driver) |}.

Definition wp_get_pixels (driver : Driver) (specIndex : Z) : Z :=
  match getSpectrometer driver specIndex with
  | None => WP_ERROR_INVALID_SPECTROMETER
  | Some spec => pixels spec
  end.

Definition wp_get_model (driver : Driver) (specIndex : Z)
    (value : list ascii) (len : Z) : Z * list ascii :=
  match getSpectrometer driver specIndex with
  | None => (WP_ERROR_INVALID_SPECTROMETER, value)
  | Some spec => exportString (model (eeprom spec)) value len
  end.

Definition wp_get_serial_number (driver : Driver) (specIndex : Z)
    (value : list ascii) (len : Z) : Z * list ascii :=
  match getSpectrometer driver specIndex with
  | None => (WP_ERROR_INVALID_SPECTROMETER, value)
  | Some spec => exportString (serialNumber (eeprom spec)) value len
  end.

Definition wp_get_wavelengths (driver : Driver) (specIndex : Z)
    (out : list double) (len : Z) : Z * list double :=
  match getSpectrometer driver specIndex with
  | None => (WP_ERROR_INVALID_SPECTROMETER, out)
  | Some spec => copy_out (wavelengths spec) 0 out len
  end.

Definition wp_get_wavenumbers (driver : Driver) (specIndex : Z)
    (out : list double) (len : Z) : Z * list double :=
  match getSpectrometer driver specIndex with
  | None => (WP_ERROR_INVALID_SPECTROMETER, out)
  | Some spec =>
      if Qle_bool (excitationNM (eeprom spec)) 0 then (WP_ERROR_NO_LASER, out)
      else copy_out (wavenumbers spec) 0 out len
  end.

(** [wp_get_spectrum]; the out-buffer holds the pixel values (as the
    [double]s they convert to exactly).  [None]: [getSpectrum] did not
    return a vector. *)
Definition wp_get_spectrum (driver : Driver) (specIndex : Z)
    (out : list Z) (len : Z) : option (Z * list Z) * Driver :=
  match getSpectrometer driver specIndex with
  | None => (Some (WP_ERROR_INVALID_SPECTROMETER, out), driver)
  | Some spec =>
      let '(r, spec) := getSpectrum spec in
      let driver := put_spectrometer driver specIndex spec in
      match r with
      | Spectrum [] => (Some (WP_ERROR, out), driver)
      | Spectrum intensities => (Some (copy_out intensities 0 out len), driver)
      | _ => (None, driver)
      end
  end.

(** The search loop of [wp_get_eeprom_field] over the map's entries. *)
Fixpoint find_field (lc : string) (entries : list (string * string))
  : option string :=
  match entries with
  | [] => None
  | (name, value) :: entries =>
      if String.eqb lc (toLower name) then Some value
      else find_field lc entries
  end.

(** [wp_get_eeprom_field]; [None]: the process ended inside [strncpy_s]. *)
Definition wp_get_eeprom_field (driver : Driver) (specIndex : Z)
    (name : string) (valueOut : list ascii) (len : Z)
  : option (Z * list ascii) :=
  match getSpectrometer driver specIndex with
  | None => Some (WP_ERROR_INVALID_SPECTROMETER, valueOut)
  | Some spec =>
      let lc := toLower name in
      match find_field lc (stringified (eeprom spec)) with
      | Some value =>
          match strncpy_s valueOut len value
                  (Z.of_nat (String.length value)) with
          | Some valueOut => Some (WP_SUCCESS, valueOut)
          | None => None
          end
      | None => Some (WP_ERROR, valueOut)
      end
  end.

(** The shape of every settor of the C surface:
    [if (!spec->method(args)) return WP_ERROR; return WP_SUCCESS;]. *)
Definition wp_set (driver : Driver) (specIndex : Z)
    (m : method float double bool) : Z * Driver :=
  match getSpectrometer driver specIndex with
  | None => (WP_ERROR_INVALID_SPECTROMETER, driver)
  | Some spec =>
      let '(ok, spec) := m spec in
      let driver := put_spectrometer driver specIndex spec in
      if negb ok then (WP_ERROR, driver) else (WP_SUCCESS, driver)
  end.

Definition wp_set_integration_time_ms (driver : Driver) (specIndex ms : Z) :=
  wp_set driver specIndex (setIntegrationTimeMS ms).

Definition wp_set_laser_enable (driver : Driver) (specIndex value : Z) :=
  wp_set driver specIndex (setLaserEnable (negb (value =? 0))).

Definition wp_set_detector_gain (driver : Driver) (specIndex : Z)
    (value : c_float) :=
  wp_set driver specIndex (setDetectorGain value).

Definition wp_set_detector_gain_odd (driver : Driver) (specIndex : Z)
    (value : c_float) :=
  wp_set driver specIndex (setDetectorGainOdd value).

Definition wp_set_detector_offset (driver : Driver) (specIndex value : Z) :=
  wp_set driver specIndex (setDetectorOffset value).

Definition wp_set_detector_offset_odd (driver : Driver) (specIndex value : Z) :=
  wp_set driver specIndex (setDetectorOffsetOdd value).

Definition wp_set_tec_enable (driver : Driver) (specIndex value : Z) :=
  wp_set driver specIndex (setTECEnable (negb (value =? 0))).

Definition wp_set_high_gain_mode (driver : Driver) (specIndex value : Z) :=
  wp_set driver specIndex (setHighGainMode (negb (value =? 0))).

Definition wp_get_eeprom_field_count (driver : Driver) (specIndex : Z) : Z :=
  match getSpectrometer driver specIndex with
  | None => WP_ERROR_INVALID_SPECTROMETER
  | Some spec => Z.of_nat (length (stringified (eeprom spec)))
  end.

(** The loop of [wp_get_eeprom] over the map's entries; [count] entries have
    been stored so far.  The caller's two arrays of character pointers are
    lists of the strings pointed to. *)
Fixpoint wp_get_eeprom_loop (entries : list (string * string)) (count : nat)
    (names values : list string) (len : Z)
  : Z * (list string * list string) :=
  match entries with
  | [] => (WP_SUCCESS, (names, values))
  | (name, value) :: entries =>
      if Z.of_nat count >=? len
      then (WP_ERROR_INSUFFICIENT_STORAGE, (names, values))
      else wp_get_eeprom_loop entries (S count)
             (<[count := name]> names) (<[count := value]> values) len
  end.

Definition wp_get_eeprom (driver : Driver) (specIndex : Z)
    (names values : list string) (len : Z)
  : Z * (list string * list string) :=
  match getSpectrometer driver specIndex with
  | None => (WP_ERROR_INVALID_SPECTROMETER, (names, values))
  | Some spec =>
      wp_get_eeprom_loop (stringified (eeprom spec)) 0 names values len
  end.

(** [wp_close_spectrometer]: [return spec->close();], the [bool] converted
    to [int]. *)
Definition wp_close_spectrometer
    (usb_release_interface : usb_dev_handle -> Z -> Z * usb_dev_handle)
    (usb_close : usb_dev_handle -> Z * usb_dev_handle)
    (driver : Driver) (specIndex : Z) : Z * Driver :=
  match getSpectrometer driver specIndex with
  | None => (WP_ERROR_INVALID_SPECTROMETER, driver)
  | Some spec =>
      let '(ok, spec) := close usb_release_interface usb_close spec in
      (if ok then 1 else 0, put_spectrometer driver specIndex spec)
  end.

(** The shape of [wp_get_firmware_version] and [wp_get_fpga_version]: an
    empty string from the session is WP_ERROR, anything else is exported. *)
Definition wp_get_version (driver : Driver) (specIndex : Z)
    (m : method float double string) (value : list ascii) (len : Z)
  : Z * list ascii * Driver :=
  match getSpectrometer driver specIndex with
  | None => (WP_ERROR_INVALID_SPECTROMETER, value, driver)
  | Some spec =>
      let '(s, spec) := m spec in
      let driver := put_spectrometer driver specIndex spec in
      if bool_decide (s = EmptyString) then (WP_ERROR, value, driver)
      else (exportString s value len, driver)
  end.

Definition wp_get_firmware_version (getCmd_default_len : Z) (flag : bool)
    (driver : Driver) (specIndex : Z) (value : list ascii) (len : Z) :=
  wp_get_version driver specIndex
    (getFirmwareVersion getCmd_default_len flag) value len.

Definition wp_get_fpga_version (getCmd_default_len : Z) (flag : bool)
    (driver : Driver) (specIndex : Z) (value : list ascii) (len : Z) :=
  wp_get_version driver specIndex
    (getFPGAVersion getCmd_default_len flag) value len.

(** [wp_get_detector_temperature_deg_c]: -999 for a missing session, else
    whatever [getDetectorTemperatureDegC] hands back. *)
Definition wp_get_detector_temperature_deg_c (getCmd_default_len : Z)
    (indeterminate : Z) (driver : Driver) (specIndex : Z)
  : returned float * Driver :=
  match getSpectrometer driver specIndex with
  | None => (Return (of_int (-999)), driver)
  | Some spec =>
      let '(r, spec) :=
        getDetectorTemperatureDegC getCmd_default_len indeterminate spec in
      (r, put_spectrometer driver specIndex spec)
  end.

End Wrapper.

Arguments Driver : clear implicits.

(* ===================================================================== *)
(** ** WasatchVCPP.h: the client-side proxy *)
(* ===================================================================== *)

(** An [int] converted to [size_t], [bits] wide. *)
Definition size_t_of_int (bits : Z) (i : Z) : Z := i mod 2 ^ bits.

(** [Proxy::Driver::getSpectrometer]:
    [if (index >= spectrometers.size()) return nullptr;
     return &spectrometers[index];].  The comparison is between an [int] and
    a [size_t], so it is made in [size_t]. *)
Definition Proxy_getSpectrometer {A : Type} (bits : Z)
    (spectrometers : list A) (index : Z) : option A :=
  if size_t_of_int bits index >=? Z.of_nat (length spectrometers) then None
  else spectrometers !! Z.to_nat index.

(* ===================================================================== *)
(** ** What a call leaves on the wire *)
(* ===================================================================== *)

(** The transfer a [sendCmd(request, value, index)] without payload performs
    on session [s]: on the ARM family eight zero bytes go along. *)
Definition command {float double : Type} (s : Spectrometer float double)
    (request value index : Z) : transfer :=
  Control {| cm_requesttype := HOST_TO_DEVICE; cm_request := request;
             cm_value := value; cm_index := index;
             cm_bytes := if isARM s then Some (replicate 8 0) else None;
             cm_size := if isARM s then MIN_ARM_LEN else 0;
             cm_timeout := 1000 |}.

(** The return value of the next transfer on [d] when it is a host-to-device
    control transfer of [size] bytes. *)
Definition next_send_result (d : usb_dev_handle) (size : Z) : Z :=
  match replies d with
  | [] => Z.neg ETIMEDOUT
  | UsbError e :: _ => Z.neg e
  | UsbData _ :: _ => size
  end.

(** The length [getCmd] really asks for on session [s]. *)
Definition asked_len {float double : Type} (s : Spectrometer float double)
    (len : Z) : Z :=
  if isARM s then Z.max MIN_ARM_LEN len else len.

(** The transfer a [getCmd(request, value, index, len)] performs on [s]. *)
Definition query {float double : Type} (s : Spectrometer float double)
    (request value index len : Z) : transfer :=
  Control {| cm_requesttype := DEVICE_TO_HOST; cm_request := request;
             cm_value := value; cm_index := index;
             cm_bytes := Some (replicate (Z.to_nat (asked_len s len)) 0);
             cm_size := asked_len s len; cm_timeout := 1000 |}.

(** What a device-to-host transfer of [asked] bytes yields for a reply (or
    for none: a timeout). *)
Definition reply_bytes (asked : Z) (r : option usb_reply) : list Z :=
  match r with
  | Some (UsbData bytes) => take (Z.to_nat asked) bytes
  | _ => []
  end.

(** Pixel values as the detector sends them: two bytes each, low byte
    first. *)
Definition encode_le (pixel_values : list Z) : list Z :=
  flat_map (fun p => [p mod 2 ^ 8; p / 2 ^ 8]) pixel_values.

(** The first-pixel overwrite on a vector of two pixels or more. *)
Definition stomp_first (spectrum : list Z) : list Z :=
  match spectrum with
  | _ :: second :: rest => second :: second :: rest
  | _ => spectrum
  end.

(** The session with its handle's log and script replaced. *)
Definition on_wire {float double : Type} (s : Spectrometer float double)
    (log : list transfer) (script : list usb_reply)
  : Spectrometer float double :=
  set_udev {| transfers := log; replies := script |} s.

(* ===================================================================== *)
(** ** Sample objects *)
(* ===================================================================== *)

(** A calibration record of a cooled 785 nm unit. *)
Definition sample_eeprom (minDegC maxDegC : Z) (cooled : bool) : EEPROM Q := {|
  model := "WP-785";
  serialNumber := "WP-00123";
  excitationNM := 785 # 1;
  hasCooling := cooled;
  minTemperatureDegC := minDegC;
  maxTemperatureDegC := maxDegC;
  degCToDACCoeffs := (3000 # 1, (-50) # 1, 0 # 1)%Q;
  adcToDegCCoeffs := (66 # 1, (-3) # 100, 0 # 1)%Q;
  stringified := [("Model"%string, "WP-785"%string);
                  ("SerialNumber"%string, "WP-00123"%string)]
|}.

(** A device that has seen no transfer yet and will answer with [rs]. *)
Definition fresh_device (rs : list usb_reply) : usb_dev_handle :=
  {| transfers := []; replies := rs |}.

(** A session on product [product] with [px] pixels, before any call. *)
Definition sample_spectrometer (product px : Z) (e : EEPROM Q)
    (rs : list usb_reply) : Spectrometer Q Q := {|
  udev := fresh_device rs;
  pid := product;
  eeprom := e;
  pixels := px;
  wavelengths := [800 # 1; 801 # 1; 802 # 1; 803 # 1]%Q;
  wavenumbers := [238 # 1; 254 # 1; 270 # 1; 285 # 1]%Q;
  integrationTimeMS := 1;
  laserEnabled := false;
  detectorTECSetpointHasBeenSet := false
|}.

Definition sample_driver (s : Spectrometer Q Q) : Driver Q Q :=
  {| spectrometers := [s] |}.

(** A calibration record without excitation (a unit that is not Raman). *)
Definition sample_eeprom_no_laser : EEPROM Q := {|
  model := "WP-VIS";
  serialNumber := "WP-00456";
  excitationNM := 0 # 1;
  hasCooling := false;
  minTemperatureDegC := 0;
  maxTemperatureDegC := 0;
  degCToDACCoeffs := (0 # 1, 0 # 1, 0 # 1)%Q;
  adcToDegCCoeffs := (0 # 1, 0 # 1, 0 # 1)%Q;
  stringified := [("Model"%string, "WP-VIS"%string)]
|}.

(** libusb calls that succeed and leave the handle as it is. *)
Definition usb_release_interface_ok (d : usb_dev_handle) (interface : Z)
  : Z * usb_dev_handle := (0, d).

Definition usb_close_ok (d : usb_dev_handle) : Z * usb_dev_handle := (0, d).

(** An ASCII lower-casing, standing for [Util::toLower] in examples. *)
Definition ascii_lower (a : ascii) : ascii :=
  let n := N_of_ascii a in
  if ((65 <=? n) && (n <=? 90))%N then ascii_of_N (n + 32) else a.

Definition sample_toLower (s : string) : string :=
  string_of_list_ascii (ascii_lower <$> list_ascii_of_string s).

(** A [strncpy_s] for examples: it copies [count] characters and a
    terminator when they fit, and ends the process when they do not. *)
Definition sample_strncpy_s (dest : list ascii) (numberOfElements : Z)
    (src : string) (count : Z) : option (list ascii) :=
  if count <? numberOfElements then
    let copied := take (Z.to_nat count) (list_ascii_of_string src) in
    Some (copied ++ [Ascii.zero] ++ drop (S (length copied)) dest)
  else None.

(** The spec's wording of the gain word's low byte: the fraction times 256,
    rounded to the nearest integer. *)
Definition round_nearest (x : Q) : Z := Qfloor (x + (1 # 2))%Q.

(** The value a gain word stands for: high byte plus low byte over 256. *)
Definition gain_decode (word : Z) : Q :=
  (inject_Z (Z.shiftr word 8) + inject_Z (Z.land word 0xff) / 256)%Q.

(* ===================================================================== *)
(** * Properties *)
(* ===================================================================== *)

Local Open Scope Z_scope.

(** ** Integers and bits *)

Lemma uint16_small (z : Z) : 0 <= z < 2 ^ 16 -> uint16 z = z.
Proof. intros Hz. unfold uint16. apply Z.mod_small. exact Hz. Qed.

Lemma uint8_small (z : Z) : 0 <= z < 2 ^ 8 -> uint8 z = z.
Proof. intros Hz. unfold uint8. apply Z.mod_small. exact Hz. Qed.

Lemma land_ones_mod (z n : Z) : 0 <= n -> Z.land z (2 ^ n - 1) = z mod 2 ^ n.
Proof.
  intros Hn.
  replace (2 ^ n - 1) with (Z.ones n) by (rewrite Z.ones_equiv; lia).
  apply Z.land_ones. exact Hn.
Qed.

Lemma land_ffff (z : Z) : Z.land z 0xffff = z mod 2 ^ 16.
Proof. exact (land_ones_mod z 16 ltac:(lia)). Qed.

Lemma land_ff (z : Z) : Z.land z 0xff = z mod 2 ^ 8.
Proof. exact (land_ones_mod z 8 ltac:(lia)). Qed.

Lemma land_fff (z : Z) : Z.land z 0xfff = z mod 2 ^ 12.
Proof. exact (land_ones_mod z 12 ltac:(lia)). Qed.

(** A byte placed above another byte: or-ing is adding. *)
Lemma lor_shiftl_8 (hi lo : Z) :
  0 <= lo < 2 ^ 8 -> Z.lor (Z.shiftl hi 8) lo = hi * 2 ^ 8 + lo.
Proof.
  intros Hlo.
  assert (Hdisj : Z.land (Z.shiftl hi 8) lo = 0).
  { apply Z.bits_inj'. intros n Hn.
    rewrite Z.land_spec, Z.bits_0.
    destruct (Z.lt_ge_cases n 8) as [Hlt | Hge].
    - rewrite Z.shiftl_spec_low by exact Hlt. reflexivity.
    - assert (Hhigh : Z.testbit lo n = false).
      { destruct (Z.eq_dec lo 0) as [-> | Hne]; [apply Z.bits_0 |].
        apply Z.bits_above_log2; [lia |].
        assert (Z.log2 lo < 8) by (apply Z.log2_lt_pow2; lia). lia. }
      rewrite Hhigh. apply andb_false_r. }
  rewrite <- Z.lxor_lor by exact Hdisj.
  rewrite <- Z.add_nocarry_lxor by exact Hdisj.
  rewrite Z.shiftl_mul_pow2 by lia. reflexivity.
Qed.

(** ** The transport *)

Lemma usb_exchange_transfers (t : transfer) (d : usb_dev_handle) :
  transfers (usb_exchange t d).2 = transfers d ++ [t].
Proof. unfold usb_exchange. destruct (replies d); reflexivity. Qed.

Lemma usb_exchange_replies (t : transfer) (d : usb_dev_handle) :
  replies (usb_exchange t d).2 = tail (replies d).
Proof. unfold usb_exchange. destruct (replies d); reflexivity. Qed.

(** Unfold the plumbing of [method] until the transport calls show. *)
Ltac run_method :=
  repeat progress
    (unfold generateTimeoutMS, bulk_read, bind, get_this, modify, ret;
     cbv beta iota zeta).

Section Properties.
Context {float double : Type} `{FloatOps float}.

Local Abbreviation Spectrometer := (Spectrometer float double).

(** ** The command channel *)

(** [sendCmd] without payload: one transfer goes out, its result is the
    device's next answer, and only the handle changes. *)
Lemma sendCmd_run (request value index : Z) (s : Spectrometer) :
  exists d,
    sendCmd request value index None 0 s
      = (next_send_result (udev s) (if isARM s then MIN_ARM_LEN else 0),
         set_udev d s)
    /\ transfers d = transfers (udev s) ++ [command s request value index]
    /\ replies d = tail (replies (udev s)).
Proof.
  unfold sendCmd, bind, get_this, modify, ret, usb_control_msg, command,
    next_send_result, usb_exchange.
  destruct (isARM s); simpl;
    destruct (replies (udev s)) as [| [e | bytes] rs]; simpl;
    eexists; (split; [reflexivity | split; reflexivity]).
Qed.

(** [getCmd]: one device-to-host transfer goes out, asking for [len] bytes
    (at least eight on the ARM family) into a zeroed buffer. *)
Lemma getCmd_transfers (request value index len : Z) (s : Spectrometer) :
  let asked := if isARM s then Z.max MIN_ARM_LEN len else len in
  transfers (udev (getCmd request value index len s).2)
  = transfers (udev s)
    ++ [Control {| cm_requesttype := DEVICE_TO_HOST; cm_request := request;
                   cm_value := value; cm_index := index;
                   cm_bytes := Some (replicate (Z.to_nat asked) 0);
                   cm_size := asked; cm_timeout := 1000 |}].
Proof.
  unfold getCmd, bind, get_this, modify, ret, usb_control_msg, usb_exchange.
  destruct (isARM s); simpl;
    destruct (replies (udev s)) as [| [e | bytes] rs]; reflexivity.
Qed.

(** ** Settors *)

Lemma clamp_range (value lo hi : Z) :
  lo <= hi -> lo <= clamp value lo hi <= hi.
Proof.
  intros Hle. unfold clamp.
  destruct (Z.ltb_spec value lo); [lia |].
  destruct (Z.gtb_spec value hi); lia.
Qed.

Lemma clamp_inside (value lo hi : Z) :
  lo <= value <= hi -> clamp value lo hi = value.
Proof.
  intros Hin. unfold clamp.
  destruct (Z.ltb_spec value lo); [lia |].
  destruct (Z.gtb_spec value hi); lia.
Qed.

(** The two words of a 24-bit value. *)
Lemma split24 (v : Z) :
  0 <= v < 2 ^ 24 ->
  let lsw := uint16 (Z.land v 0xffff) in
  let msw := uint16 (Z.land (Z.shiftr v 16) 0x00ff) in
  lsw = v mod 2 ^ 16 /\ msw = v / 2 ^ 16
  /\ 0 <= lsw < 2 ^ 16 /\ 0 <= msw < 2 ^ 8 /\ v = msw * 2 ^ 16 + lsw.
Proof.
  intros Hv. cbv zeta.
  rewrite land_ffff, land_ff, Z.shiftr_div_pow2 by lia.
  assert (Hq : 0 <= v / 2 ^ 16 < 2 ^ 8).
  { split; [apply Z.div_pos; lia | apply Z.div_lt_upper_bound; lia]. }
  assert (Hr : 0 <= v mod 2 ^ 16 < 2 ^ 16) by (apply Z.mod_pos_bound; lia).
  rewrite (Z.mod_small (v / 2 ^ 16)) by exact Hq.
  rewrite !uint16_small by lia.
  pose proof (Z.div_mod v (2 ^ 16) ltac:(lia)). lia.
Qed.

(** [setIntegrationTimeMS] on any input: the clamped value is stored, and
    its two words go out with opcode 0xb2. *)
Lemma setIntegrationTimeMS_run (ms : Z) (s : Spectrometer) :
  let s' := (setIntegrationTimeMS ms s).2 in
  let stored := clamp ms 1 (MAX_UINT24 - 1) in
  integrationTimeMS s' = stored
  /\ transfers (udev s')
     = transfers (udev s)
       ++ [command s 0xb2 (stored mod 2 ^ 16) (stored / 2 ^ 16)].
Proof.
  cbv zeta. unfold setIntegrationTimeMS, bind, modify, ret.
  pose proof (clamp_range ms 1 (MAX_UINT24 - 1) ltac:(unfold MAX_UINT24; lia))
    as Hc.
  destruct (split24 (clamp ms 1 (MAX_UINT24 - 1))
              ltac:(unfold MAX_UINT24 in *; lia)) as (Hl & Hm & _).
  cbv zeta in Hl, Hm. rewrite Hl, Hm.
  destruct (sendCmd_run 0xb2 (clamp ms 1 (MAX_UINT24 - 1) mod 2 ^ 16)
              (clamp ms 1 (MAX_UINT24 - 1) / 2 ^ 16) s) as (d & E & Ht & _).
  rewrite E. simpl. split; [reflexivity | exact Ht].
Qed.

(** C4. For an integration time outside [1, 2^24 - 1] the session stores
    the nearer bound (1 below the range, 2^24 - 1 above it) and never the
    input, and what goes out with opcode 0xb2 is the stored value split into
    a 16-bit low word (the transfer's value) and a high word of at most 8
    significant bits (the transfer's index). *)
Theorem setIntegrationTimeMS_clamps_out_of_range (ms : Z) (s : Spectrometer) :
  ms < 1 \/ 2 ^ 24 - 1 < ms ->
  let s' := (setIntegrationTimeMS ms s).2 in
  let stored := integrationTimeMS s' in
  stored = (if ms <? 1 then 1 else 2 ^ 24 - 1)
  /\ stored <> ms
  /\ exists lsw msw,
       transfers (udev s') = transfers (udev s) ++ [command s 0xb2 lsw msw]
       /\ 0 <= lsw < 2 ^ 16 /\ 0 <= msw < 2 ^ 8
       /\ stored = msw * 2 ^ 16 + lsw.
Proof.
  intros Hout. cbv zeta.
  destruct (setIntegrationTimeMS_run ms s) as [Hs Ht]. cbv zeta in Hs, Ht.
  rewrite Hs.
  assert (Hc : clamp ms 1 (MAX_UINT24 - 1) = (if ms <? 1 then 1 else 2 ^ 24 - 1)).
  { unfold clamp, MAX_UINT24.
    destruct (Z.ltb_spec ms 1); [reflexivity |].
    destruct (Z.gtb_spec ms (16777216 - 1)); [reflexivity | lia]. }
  split; [exact Hc |].
  split.
  { rewrite Hc. destruct (Z.ltb_spec ms 1); lia. }
  exists (clamp ms 1 (MAX_UINT24 - 1) mod 2 ^ 16),
         (clamp ms 1 (MAX_UINT24 - 1) / 2 ^ 16).
  split; [exact Ht |].
  rewrite Hc. destruct (ms <? 1); vm_compute; repeat split; congruence.
Qed.

(** Every settor that sends answers through [isSuccess], which is true. *)
Lemma setLaserEnable_true (flag : bool) (s : Spectrometer) :
  (setLaserEnable flag s).1 = true.
Proof.
  unfold setLaserEnable, bind, modify, ret.
  destruct (sendCmd_run 0xbe (if flag then 1 else 0) 0 s) as (d & E & _).
  rewrite E. reflexivity.
Qed.

Lemma setIntegrationTimeMS_true (ms : Z) (s : Spectrometer) :
  (setIntegrationTimeMS ms s).1 = true.
Proof.
  unfold setIntegrationTimeMS, bind, modify, ret.
  match goal with
  | |- context [sendCmd ?r ?v ?i None 0 s] =>
      destruct (sendCmd_run r v i s) as (d & E & _)
  end.
  rewrite E. reflexivity.
Qed.

(** The 16 stored bits of an [int16_t], read as unsigned. *)
Lemma reinterpret_uint16_twos_complement (value : Z) :
  - 2 ^ 15 <= value < 2 ^ 15 ->
  reinterpret_uint16 value = (if value <? 0 then value + 2 ^ 16 else value).
Proof.
  intros Hv. unfold reinterpret_uint16. rewrite land_ffff.
  destruct (Z.ltb_spec value 0).
  - symmetry. apply Z.mod_unique with (q := -1); lia.
  - apply Z.mod_small. lia.
Qed.

Lemma setDetectorOffset_run (value : Z) (s : Spectrometer) :
  transfers (udev (setDetectorOffset value s).2)
  = transfers (udev s) ++ [command s 0xb6 (reinterpret_uint16 value) 0].
Proof.
  unfold setDetectorOffset, bind, ret.
  destruct (sendCmd_run 0xb6 (reinterpret_uint16 value) 0 s) as (d & E & Ht & _).
  rewrite E. exact Ht.
Qed.

Lemma setDetectorOffsetOdd_run (value : Z) (s : Spectrometer) :
  transfers (udev (setDetectorOffsetOdd value s).2)
  = transfers (udev s) ++ [command s 0x9c (reinterpret_uint16 value) 0].
Proof.
  unfold setDetectorOffsetOdd, bind, ret.
  destruct (sendCmd_run 0x9c (reinterpret_uint16 value) 0 s) as (d & E & Ht & _).
  rewrite E. exact Ht.
Qed.

(** C6. For a signed 16-bit offset, [setDetectorOffset] (opcode 0xb6) and
    [setDetectorOffsetOdd] (opcode 0x9c) each send one word: the input's
    two's-complement pattern (the input plus 2^16 when negative, the input
    itself otherwise), a 16-bit number whose bits are the input's bits. *)
Theorem setDetectorOffset_sends_twos_complement (value : Z) (s : Spectrometer) :
  - 2 ^ 15 <= value < 2 ^ 15 ->
  let word := if value <? 0 then value + 2 ^ 16 else value in
  transfers (udev (setDetectorOffset value s).2)
    = transfers (udev s) ++ [command s 0xb6 word 0]
  /\ transfers (udev (setDetectorOffsetOdd value s).2)
     = transfers (udev s) ++ [command s 0x9c word 0]
  /\ 0 <= word < 2 ^ 16
  /\ (forall i, 0 <= i < 16 -> Z.testbit word i = Z.testbit value i).
Proof.
  intros Hv. cbv zeta.
  rewrite <- (reinterpret_uint16_twos_complement value Hv).
  split; [apply setDetectorOffset_run |].
  split; [apply setDetectorOffsetOdd_run |].
  unfold reinterpret_uint16. rewrite land_ffff.
  split; [apply Z.mod_pos_bound; lia |].
  intros i Hi. apply Z.mod_pow2_bits_low. lia.
Qed.

(** C8. On the ARM family (product id 0x4000) a [sendCmd] without payload
    hands [usb_control_msg] eight zero bytes and length 8 whatever length
    the caller named, and a [getCmd] asks for at least eight bytes whatever
    the caller asked for.  On every family, when the get transfer returns a
    negative or zero byte count, [getCmd] returns the empty vector. *)
Theorem arm_padding_and_empty_get (request value index len : Z)
    (s : Spectrometer) :
  (isARM s = true ->
     transfers (udev (sendCmd request value index None len s).2)
       = transfers (udev s)
         ++ [Control {| cm_requesttype := HOST_TO_DEVICE;
                        cm_request := request; cm_value := value;
                        cm_index := index;
                        cm_bytes := Some [0; 0; 0; 0; 0; 0; 0; 0];
                        cm_size := 8; cm_timeout := 1000 |}]
     /\ transfers (udev (getCmd request value index len s).2)
        = transfers (udev s)
          ++ [Control {| cm_requesttype := DEVICE_TO_HOST;
                         cm_request := request; cm_value := value;
                         cm_index := index;
                         cm_bytes := Some (replicate (Z.to_nat (Z.max 8 len)) 0);
                         cm_size := Z.max 8 len; cm_timeout := 1000 |}]
     /\ 8 <= Z.max 8 len)
  /\ (let asked := if isARM s then Z.max MIN_ARM_LEN len else len in
      (usb_control_msg (udev s) DEVICE_TO_HOST request value index
         (Some (replicate (Z.to_nat asked) 0)) asked 1000).1.1 <= 0 ->
      (getCmd request value index len s).1 = []).
Proof.
  split.
  - intros Harm. split; [| split; [| lia]].
    + unfold sendCmd. run_method. rewrite Harm. simpl.
      unfold usb_control_msg, usb_exchange.
      destruct (replies (udev s)) as [| [e | bytes] rs]; reflexivity.
    + pose proof (getCmd_transfers request value index len s) as Ht.
      cbv zeta in Ht. rewrite Harm in Ht. exact Ht.
  - cbv zeta.
    unfold getCmd. run_method. unfold usb_control_msg, usb_exchange.
    destruct (isARM s); simpl;
      destruct (replies (udev s)) as [| [e | bytes] rs]; simpl;
      try reflexivity;
      intros Hrc;
      match goal with
      | |- take (Z.to_nat ?n) _ = [] =>
          replace (Z.to_nat n) with 0%nat by lia; reflexivity
      end.
Qed.

(** ** Detector gain *)

Lemma cast_int_floor (x : Q) : (0 <= x)%Q -> cast_int x = Qfloor x.
Proof.
  destruct x as [n d]. unfold Qle, cast_int, Qfloor. simpl. intros Hn.
  apply Z.quot_div_nonneg; lia.
Qed.

Lemma Qfloor_between (x : Q) (lo hi : Z) :
  (inject_Z lo <= x)%Q -> (x < inject_Z hi)%Q -> lo <= Qfloor x < hi.
Proof.
  intros Hlo Hhi. split.
  - rewrite <- (Qfloor_Z lo). apply Qfloor_resp_le. exact Hlo.
  - rewrite Zlt_Qlt. apply Qle_lt_trans with x; [apply Qfloor_le | exact Hhi].
Qed.

(** The fraction of a gain, in 256ths. *)
Lemma gain_fraction_range (value : Q) :
  (0 <= (value - inject_Z (Qfloor value)) * 256)%Q
  /\ ((value - inject_Z (Qfloor value)) * 256 < inject_Z 256)%Q.
Proof.
  pose proof (Qfloor_le value) as Hle.
  pose proof (Qlt_floor value) as Hlt.
  rewrite inject_Z_plus in Hlt.
  change (inject_Z 1) with 1%Q in Hlt. change (inject_Z 256) with 256%Q.
  split; lra.
Qed.

(** The word of an in-range gain: integer part above, truncated 256ths
    of the fraction below. *)
Lemma gain_word_in_range (value : Q) :
  (0 <= value)%Q -> (value < 256)%Q ->
  let msb := Qfloor value in
  let lsb := Qfloor ((value - inject_Z msb) * 256) in
  0 <= msb < 2 ^ 8 /\ 0 <= lsb < 2 ^ 8
  /\ gain_word value = msb * 2 ^ 8 + lsb.
Proof.
  intros H0 H256. cbv zeta.
  assert (Hm : 0 <= Qfloor value < 2 ^ 8)
    by (apply Qfloor_between; [exact H0 | exact H256]).
  destruct (gain_fraction_range value) as [Hf0 Hf1].
  assert (Hl : 0 <= Qfloor ((value - inject_Z (Qfloor value)) * 256) < 2 ^ 8)
    by (apply Qfloor_between; [exact Hf0 | exact Hf1]).
  split; [exact Hm |]. split; [exact Hl |].
  unfold gain_word, float_to_int, float_sub, float_mul.
  rewrite (cast_int_floor value H0), land_ff.
  rewrite (Z.mod_small (Qfloor value)) by exact Hm.
  rewrite (uint8_small (Qfloor value)) by exact Hm.
  rewrite (cast_int_floor _ Hf0), land_ff.
  rewrite (Z.mod_small (Qfloor _)) by exact Hl.
  rewrite (uint8_small (Qfloor _)) by exact Hl.
  rewrite lor_shiftl_8 by exact Hl.
  apply uint16_small. lia.
Qed.

Lemma gain_decode_word (msb lsb : Z) :
  0 <= lsb < 2 ^ 8 ->
  gain_decode (msb * 2 ^ 8 + lsb) = (inject_Z msb + inject_Z lsb / 256)%Q.
Proof.
  intros Hl. unfold gain_decode.
  rewrite Z.shiftr_div_pow2, land_ff by lia.
  replace ((msb * 2 ^ 8 + lsb) / 2 ^ 8) with msb
    by (apply Z.div_unique with (r := lsb); lia).
  replace ((msb * 2 ^ 8 + lsb) mod 2 ^ 8) with lsb
    by (apply Z.mod_unique with (q := msb); lia).
  reflexivity.
Qed.

Lemma gain_rejected_in_range (value : Q) :
  (0 <= value)%Q -> (value < 256)%Q -> gain_rejected value = false.
Proof.
  intros H0 H256. unfold gain_rejected, float_lt, float_ge.
  apply orb_false_intro.
  - apply negb_false_iff. apply Qle_bool_iff. exact H0.
  - destruct (Qle_bool 256 value) eqn:E; [| reflexivity].
    apply Qle_bool_iff in E. lra.
Qed.

Lemma gain_rejected_out_of_range (value : Q) :
  (value < 0)%Q \/ (256 <= value)%Q -> gain_rejected value = true.
Proof.
  intros [Hneg | Hbig]; unfold gain_rejected, float_lt, float_ge;
    apply orb_true_iff.
  - left. apply negb_true_iff.
    destruct (Qle_bool 0 value) eqn:E; [| reflexivity].
    apply Qle_bool_iff in E. lra.
  - right. apply Qle_bool_iff. exact Hbig.
Qed.

(** C5, as the code has it. For a gain in [0, 256) both gain settors send
    one 16-bit word (opcodes 0xb7 and 0x9d) whose high byte is the integer
    part and whose low byte is the fraction times 256 with its own fraction
    dropped (not rounded to nearest); the word decodes to a value that is at
    most the input and less than 1/256 below it.  For a gain below 0 or at
    least 256, an infinity included, both settors return false, send nothing
    and leave the session as it was.  A NaN compares neither way and is
    outside this statement. *)
Theorem setDetectorGain_encodes_by_truncation (value : Q) (s : Spectrometer) :
  ((0 <= value)%Q /\ (value < 256)%Q ->
     let msb := Qfloor value in
     let lsb := Qfloor ((value - inject_Z msb) * 256) in
     let word := msb * 2 ^ 8 + lsb in
     0 <= msb < 2 ^ 8 /\ 0 <= lsb < 2 ^ 8
     /\ transfers (udev (setDetectorGain value s).2)
        = transfers (udev s) ++ [command s 0xb7 word 0]
     /\ transfers (udev (setDetectorGainOdd value s).2)
        = transfers (udev s) ++ [command s 0x9d word 0]
     /\ (gain_decode word <= value)%Q
     /\ (value - gain_decode word < 1 # 256)%Q)
  /\ ((value < 0)%Q \/ (256 <= value)%Q ->
      setDetectorGain value s = (false, s)
      /\ setDetectorGainOdd value s = (false, s))
  /\ (setDetectorGain MinusInfinity s = (false, s)
      /\ setDetectorGainOdd MinusInfinity s = (false, s)
      /\ setDetectorGain PlusInfinity s = (false, s)
      /\ setDetectorGainOdd PlusInfinity s = (false, s)).
Proof.
  split; [| split; [| repeat split]].
  - intros [H0 H256]. cbv zeta.
    destruct (gain_word_in_range value H0 H256) as (Hm & Hl & Hw).
    cbv zeta in Hm, Hl, Hw.
    split; [exact Hm |]. split; [exact Hl |].
    split; [| split].
    + unfold setDetectorGain, bind, ret.
      rewrite (gain_rejected_in_range value H0 H256), Hw.
      match goal with
      | |- context [sendCmd ?r ?v ?i None 0 s] =>
          destruct (sendCmd_run r v i s) as (d & E & Ht & _)
      end.
      rewrite E. exact Ht.
    + unfold setDetectorGainOdd, bind, ret.
      rewrite (gain_rejected_in_range value H0 H256), Hw.
      match goal with
      | |- context [sendCmd ?r ?v ?i None 0 s] =>
          destruct (sendCmd_run r v i s) as (d & E & Ht & _)
      end.
      rewrite E. exact Ht.
    + rewrite gain_decode_word by exact Hl.
      pose proof (Qfloor_le ((value - inject_Z (Qfloor value)) * 256)) as Hle.
      pose proof (Qlt_floor ((value - inject_Z (Qfloor value)) * 256)) as Hlt.
      rewrite inject_Z_plus in Hlt. change (inject_Z 1) with 1%Q in Hlt.
      unfold Qdiv. change (/ 256)%Q with (1 # 256)%Q.
      split; lra.
  - intros Hout. unfold setDetectorGain, setDetectorGainOdd, ret.
    rewrite (gain_rejected_out_of_range value Hout). split; reflexivity.
Qed.

(** ** Thermoelectric cooler *)

(** [setDetectorTECSetpointDegC] inside the calibrated range of a cooled
    unit: the DAC word goes out with opcode 0xd8 and the gate is set. *)
Lemma setDetectorTECSetpointDegC_run (degC : Z) (s : Spectrometer) :
  hasCooling (eeprom s) = true ->
  minTemperatureDegC (eeprom s) <= degC <= maxTemperatureDegC (eeprom s) ->
  let word :=
    Z.land (round_u16 (poly2 (degCToDACCoeffs (eeprom s)) degC)) 0xfff in
  exists d,
    setDetectorTECSetpointDegC degC s
      = (true, set_detectorTECSetpointHasBeenSet true (set_udev d s))
    /\ transfers d = transfers (udev s) ++ [command s 0xd8 word 0]
    /\ replies d = tail (replies (udev s)).
Proof.
  intros Hcool Hrange. cbv zeta.
  unfold setDetectorTECSetpointDegC, bind, get_this, modify, ret.
  rewrite Hcool. simpl.
  destruct (Z.ltb_spec degC (minTemperatureDegC (eeprom s))); [lia |].
  destruct (Z.gtb_spec degC (maxTemperatureDegC (eeprom s))); [lia |].
  simpl.
  match goal with
  | |- context [sendCmd ?r ?v ?i None 0 s] =>
      destruct (sendCmd_run r v i s) as (d & E & Ht & Hr)
  end.
  rewrite E. exists d. split; [reflexivity | split; assumption].
Qed.

(** Outside the calibrated range nothing is sent and nothing changes. *)
Lemma setDetectorTECSetpointDegC_rejects (degC : Z) (s : Spectrometer) :
  degC < minTemperatureDegC (eeprom s) \/ maxTemperatureDegC (eeprom s) < degC ->
  setDetectorTECSetpointDegC degC s = (false, s).
Proof.
  intros Hout.
  unfold setDetectorTECSetpointDegC, bind, get_this, ret.
  destruct (hasCooling (eeprom s)); [| reflexivity]. simpl.
  destruct (Z.ltb_spec degC (minTemperatureDegC (eeprom s))); [reflexivity |].
  destruct (Z.gtb_spec degC (maxTemperatureDegC (eeprom s))); [reflexivity | lia].
Qed.

(** C7, as the code has it. Without the cooling flag [setTECEnable] returns
    false, sends nothing and changes nothing.  With the flag, the setpoint
    gate still false, and a calibrated minimum that does not exceed the
    calibrated maximum, exactly two transfers go out, in this order: the
    setpoint (opcode 0xd8) with the DAC word of the calibrated minimum, then
    the enable (opcode 0xd6); the gate is true afterwards and the call
    returns true. *)
Theorem setTECEnable_defaults_setpoint_first (flag : bool) (s : Spectrometer) :
  (hasCooling (eeprom s) = false -> setTECEnable flag s = (false, s))
  /\ (hasCooling (eeprom s) = true ->
      detectorTECSetpointHasBeenSet s = false ->
      minTemperatureDegC (eeprom s) <= maxTemperatureDegC (eeprom s) ->
      let degC := minTemperatureDegC (eeprom s) in
      let word :=
        Z.land (round_u16 (poly2 (degCToDACCoeffs (eeprom s)) degC)) 0xfff in
      let s' := (setTECEnable flag s).2 in
      transfers (udev s')
        = transfers (udev s)
          ++ [command s 0xd8 word 0;
              command s 0xd6 (if flag then 1 else 0) 0]
      /\ detectorTECSetpointHasBeenSet s' = true
      /\ (setTECEnable flag s).1 = true).
Proof.
  split.
  - intros Hcool. unfold setTECEnable, bind, get_this, ret.
    rewrite Hcool. reflexivity.
  - intros Hcool Hgate Hle. cbv zeta.
    destruct (setDetectorTECSetpointDegC_run (minTemperatureDegC (eeprom s)) s
                Hcool ltac:(lia)) as (d & E & Ht & _).
    cbv zeta in Ht.
    unfold setTECEnable, bind, get_this, ret.
    rewrite Hcool, Hgate. simpl. rewrite E.
    set (s1 := set_detectorTECSetpointHasBeenSet true (set_udev d s)).
    destruct (sendCmd_run 0xd6 (if flag then 1 else 0) 0 s1)
      as (d2 & E2 & Ht2 & _).
    rewrite E2. simpl.
    split; [| split; reflexivity].
    rewrite Ht2. subst s1. simpl. rewrite Ht, <- app_assoc. reflexivity.
Qed.

(** ** Acquisition *)

(** The read loop ends: every iteration that does not break adds at least
    one byte to the total, so [bytesExpected - totalBytesRead] iterations
    are enough. *)
Lemma getSpectrum_loop_ends (fuel : nat) (ep bytesExpected timeoutMS : Z) :
  forall (totalBytesRead bytesLeftToRead : Z) (buf spectrum : list Z)
         (s : Spectrometer),
    bytesExpected - totalBytesRead <= Z.of_nat fuel ->
    is_Some (getSpectrum_loop fuel ep bytesExpected timeoutMS totalBytesRead
               bytesLeftToRead buf spectrum s).1.
Proof.
  induction fuel as [| fuel IH]; intros total left buf spectrum s Hfuel;
    simpl; destruct (Z.ltb_spec total bytesExpected) as [Hlt | Hge];
    try (eexists; reflexivity); [lia |].
  unfold bulk_read, bind, get_this, modify, ret.
  destruct (usb_bulk_read (udev s) ep buf left timeoutMS)
    as [[bytesRead buf'] d].
  destruct (Z.leb_spec bytesRead 0) as [Hle | Hpos]; [eexists; reflexivity |].
  destruct (negb (Z.rem bytesRead 2 =? 0)); [eexists; reflexivity |].
  apply IH. lia.
Qed.

(** [getSpectrum] is never cut off by the iteration bound of the model. *)
Lemma getSpectrum_not_cut_off (s : Spectrometer) :
  (getSpectrum s).1 <> LoopCutOff.
Proof.
  unfold getSpectrum. run_method.
  destruct (sendCmd 173 0 0 None 0 s) as [rc s1].
  match goal with
  | |- context [getSpectrum_loop ?f ?ep ?e ?t ?tot ?l ?b ?sp ?st] =>
      pose proof (getSpectrum_loop_ends f ep e t tot l b sp st ltac:(lia))
        as [spectrum Hsome];
      destruct (getSpectrum_loop f ep e t tot l b sp st) as [r s2]
  end.
  simpl in Hsome. subst r.
  destruct spectrum as [| p0 [| p1 rest]]; simpl; discriminate.
Qed.

(** When the very first bulk read returns a non-positive or an odd count,
    nothing has been decoded and [getSpectrum] returns the empty vector. *)
Lemma getSpectrum_first_read_fails (s : Spectrometer) :
  let s1 := (sendCmd 0xad 0 0 None 0 s).2 in
  let bytesExpected := int32 (pixels s * 2) in
  let timeoutMS := int32 (uint32 (2 * integrationTimeMS s + 2000)) in
  let bytesRead :=
    (usb_bulk_read (udev s1) 0x82 (replicate (Z.to_nat bytesExpected) 0)
       bytesExpected timeoutMS).1.1 in
  bytesRead <= 0 \/ Z.rem bytesRead 2 <> 0 ->
  (getSpectrum s).1 = Spectrum [].
Proof.
  cbv zeta. intros Hfail.
  unfold getSpectrum. run_method.
  destruct (sendCmd_run 0xad 0 0 s) as (d & E & _).
  rewrite E in Hfail |- *. simpl in Hfail |- *.
  set (bytesExpected := int32 (pixels s * 2)) in *.
  destruct (Z.to_nat bytesExpected) as [| fuel] eqn:Hfuel; simpl;
    destruct (Z.ltb_spec 0 bytesExpected) as [Hpos | Hnone];
    try reflexivity; [lia |].
  run_method. simpl in Hfail |- *.
  destruct (usb_bulk_read d 130 _ _ _) as [[bytesRead buf'] d'].
  simpl in Hfail.
  destruct (Z.leb_spec bytesRead 0) as [Hle | Hgt]; [reflexivity |].
  destruct (Z.eqb_spec (Z.rem bytesRead 2) 0) as [Heven | Hodd];
    [lia | reflexivity].
Qed.

(** ** Detector temperature *)

Lemma getCmd_frame (request value index len : Z) (s : Spectrometer) :
  exists d, (getCmd request value index len s).2 = set_udev d s.
Proof.
  unfold getCmd. run_method.
  destruct (usb_control_msg _ _ _ _ _ _ _ _) as [[rc data] d].
  exists d. reflexivity.
Qed.

(** A reading of fewer than two bytes: the raw value is -1 and the
    temperature is the sentinel -999. *)
Lemma getDetectorTemperatureDegC_short_read (len indeterminate : Z)
    (s : Spectrometer) :
  (length (getCmd 0xd7 0 0 len s).1 < 2)%nat ->
  (getDetectorTemperatureRaw len s).1 = -1
  /\ (getDetectorTemperatureDegC len indeterminate s).1
     = Return (of_int (-999)).
Proof.
  intros Hshort.
  unfold getDetectorTemperatureDegC, getDetectorTemperatureRaw. run_method.
  destruct (getCmd 215 0 0 len s) as [data s1]. simpl in Hshort.
  destruct data as [| d0 [| d1 rest]]; simpl in Hshort; try lia;
    split; reflexivity.
Qed.

(** A reading of two bytes or more: the raw value is the big-endian word,
    but the temperature is computed from the uninitialised local and no
    value is returned. *)
Lemma getDetectorTemperatureDegC_good_read (len indeterminate : Z)
    (s : Spectrometer) :
  (2 <= length (getCmd 0xd7 0 0 len s).1)%nat ->
  (getDetectorTemperatureDegC len indeterminate s).1
  = NoReturn (poly2 (adcToDegCCoeffs (eeprom s)) (uint16 indeterminate)).
Proof.
  intros Hgood.
  unfold getDetectorTemperatureDegC, getDetectorTemperatureRaw. run_method.
  destruct (getCmd_frame 0xd7 0 0 len s) as [d Hd].
  destruct (getCmd 215 0 0 len s) as [data s1].
  simpl in Hgood, Hd. subst s1.
  destruct data as [| d0 [| d1 rest]]; simpl in Hgood; try lia.
  run_method.
  assert (Hnonneg : 0 <= uint16 (Z.lor (Z.shiftl d0 8) d1))
    by (unfold uint16; apply Z.mod_pos_bound; lia).
  destruct (Z.ltb_spec (uint16 (Z.lor (Z.shiftl d0 8) d1)) 0); [lia |].
  reflexivity.
Qed.

(** ** The C surface *)

(** The copy loop when what is left fits below [len]. *)
Lemma copy_out_fits {A} (src : list A) :
  forall (i : nat) (dst : list A) (len : Z),
    Z.of_nat (i + length src) <= len ->
    (i + length src <= length dst)%nat ->
    copy_out src i dst len
    = (WP_SUCCESS, take i dst ++ src ++ drop (i + length src) dst).
Proof.
  induction src as [| c src IH]; intros i dst len Hlen Hdst; simpl in *.
  - rewrite Nat.add_0_r, take_drop. reflexivity.
  - destruct (Z.ltb_spec (Z.of_nat i) len); [| lia].
    rewrite IH by (rewrite ?length_insert; lia).
    rewrite (take_S_r _ i c) by (apply list_lookup_insert_eq; lia).
    rewrite take_insert_ge by lia.
    rewrite drop_insert_lt by lia.
    rewrite <- app_assoc. simpl.
    repeat f_equal. lia.
Qed.

(** The copy loop when what is left does not fit below [len]. *)
Lemma copy_out_too_long {A} (src : list A) :
  forall (i : nat) (dst : list A) (len : Z),
    Z.of_nat i <= len ->
    len < Z.of_nat (i + length src) ->
    (copy_out src i dst len).1 = WP_ERROR_INSUFFICIENT_STORAGE.
Proof.
  induction src as [| c src IH]; intros i dst len Hi Hlen; simpl in *.
  - lia.
  - destruct (Z.ltb_spec (Z.of_nat i) len); [| reflexivity].
    apply IH; lia.
Qed.

Lemma memset_length {A} (buf : list A) (c : A) (len : Z) :
  length (memset buf c len) = length buf.
Proof.
  unfold memset. cbv zeta.
  rewrite length_app, length_replicate, length_drop. lia.
Qed.

(** [exportString] into a buffer of at least [len] characters: a string of
    at most [len] characters is copied to the front of the zeroed buffer
    with WP_SUCCESS; a longer one gives WP_ERROR_INSUFFICIENT_STORAGE. *)
Lemma exportString_fits (s : string) (buf : list ascii) (len : Z) :
  len <= Z.of_nat (length buf) ->
  Z.of_nat (length (list_ascii_of_string s)) <= len ->
  exportString s buf len
  = (WP_SUCCESS,
     list_ascii_of_string s
     ++ drop (length (list_ascii_of_string s)) (memset buf Ascii.zero len)).
Proof.
  intros Hbuf Hfits. unfold exportString.
  rewrite copy_out_fits by (rewrite ?memset_length; simpl; lia).
  reflexivity.
Qed.

Lemma exportString_too_long (s : string) (buf : list ascii) (len : Z) :
  0 <= len < Z.of_nat (length (list_ascii_of_string s)) ->
  (exportString s buf len).1 = WP_ERROR_INSUFFICIENT_STORAGE.
Proof.
  intros Hlong. unfold exportString.
  apply copy_out_too_long; simpl; lia.
Qed.

(** [wp_get_wavelengths] on an open session, likewise. *)
Lemma wp_get_wavelengths_fits (driver : Driver float double) (specIndex : Z)
    (spec : Spectrometer) (out : list double) (len : Z) :
  getSpectrometer driver specIndex = Some spec ->
  len <= Z.of_nat (length out) ->
  Z.of_nat (length (wavelengths spec)) <= len ->
  wp_get_wavelengths driver specIndex out len
  = (WP_SUCCESS, wavelengths spec ++ drop (length (wavelengths spec)) out).
Proof.
  intros Hspec Hout Hfits. unfold wp_get_wavelengths. rewrite Hspec.
  rewrite copy_out_fits by (simpl; lia). reflexivity.
Qed.

Lemma wp_get_wavelengths_too_long (driver : Driver float double)
    (specIndex : Z) (spec : Spectrometer) (out : list double) (len : Z) :
  getSpectrometer driver specIndex = Some spec ->
  0 <= len < Z.of_nat (length (wavelengths spec)) ->
  (wp_get_wavelengths driver specIndex out len).1
  = WP_ERROR_INSUFFICIENT_STORAGE.
Proof.
  intros Hspec Hlong. unfold wp_get_wavelengths. rewrite Hspec.
  apply copy_out_too_long; simpl; lia.
Qed.

(** [wp_get_eeprom_field] has three results and the storage code is not
    one of them, whatever [strncpy_s] does with a value that is too long. *)
Lemma wp_get_eeprom_field_codes (toLower : string -> string)
    (strncpy_s : list ascii -> Z -> string -> Z -> option (list ascii))
    (driver : Driver float double) (specIndex : Z) (name : string)
    (valueOut : list ascii) (len : Z) (r : Z * list ascii) :
  wp_get_eeprom_field toLower strncpy_s driver specIndex name valueOut len
  = Some r ->
  r.1 = WP_ERROR_INVALID_SPECTROMETER \/ r.1 = WP_SUCCESS \/ r.1 = WP_ERROR.
Proof.
  unfold wp_get_eeprom_field.
  destruct (getSpectrometer driver specIndex) as [spec |].
  - destruct (find_field toLower (toLower name) (stringified (eeprom spec)))
      as [value |].
    + destruct (strncpy_s valueOut len value _) as [out |];
        intros [= <-]; auto.
    + intros [= <-]. auto.
  - intros [= <-]. auto.
Qed.

End Properties.

(* ===================================================================== *)
(** * The code on sample inputs *)
(* ===================================================================== *)

(** C1, on a failing input. Four pixels are expected; the first bulk read
    delivers two of them and the second fails (with an error, or with an odd
    count).  [getSpectrum] returns the two pixels of the first read, pixel 0
    overwritten, and [wp_get_spectrum] reports success. *)
Theorem getSpectrum_returns_partial_data_after_failed_read :
  let e := sample_eeprom 10 20 true in
  let failed :=
    sample_spectrometer 0x1000 4 e
      [UsbData []; UsbData [10; 0; 20; 0]; UsbError 5] in
  let odd :=
    sample_spectrometer 0x1000 4 e
      [UsbData []; UsbData [10; 0; 20; 0]; UsbData [30; 0; 40]] in
  (getSpectrum failed).1 = Spectrum [20; 20]
  /\ (getSpectrum odd).1 = Spectrum [20; 20]
  /\ (wp_get_spectrum (sample_driver failed) 0 [0; 0; 0; 0] 4).1
     = Some (WP_SUCCESS, [20; 20; 0; 0]).
Proof. vm_compute. repeat split; reflexivity. Qed.

(** C10, on a failing input. When exactly one pixel has been decoded (two
    pixels expected and the second read fails, or a one-pixel detector) the
    vector has one element and the first-pixel overwrite reads index 1. *)
Theorem getSpectrum_one_pixel_reads_index_1 :
  let e := sample_eeprom 10 20 true in
  (getSpectrum
     (sample_spectrometer 0x1000 2 e [UsbData []; UsbData [10; 0]; UsbError 5])).1
  = IndexPastEnd [10]
  /\ (getSpectrum
        (sample_spectrometer 0x1000 1 e [UsbData []; UsbData [10; 0]])).1
     = IndexPastEnd [10].
Proof. vm_compute. split; reflexivity. Qed.

(** C2, on a failing input. The device answers the temperature request
    with the bytes 0x01 0x00 (raw reading 256).  The polynomial is applied
    to the uninitialised local (here 7), not to 256, and the body ends
    without returning a value. *)
Theorem getDetectorTemperatureDegC_good_read_returns_nothing :
  let s :=
    sample_spectrometer 0x1000 4 (sample_eeprom 10 20 true) [UsbData [1; 0]] in
  (getDetectorTemperatureRaw 2 s).1 = 256
  /\ (getDetectorTemperatureDegC 2 7 s).1
     = NoReturn (poly2 (adcToDegCCoeffs (eeprom s)) 7)
  /\ (getDetectorTemperatureDegC 2 7 s).1
     <> Return (poly2 (adcToDegCCoeffs (eeprom s)) 256).
Proof. vm_compute. repeat split; try reflexivity. discriminate. Qed.

(** C3, on a failing input. The control transfer of [setLaserEnable] and of
    [setIntegrationTimeMS] fails (result -5), and both report success, as do
    the C functions above them. *)
Theorem settors_report_success_on_failed_transfer :
  let s :=
    sample_spectrometer 0x1000 4 (sample_eeprom 10 20 true) [UsbError 5] in
  (sendCmd 0xbe 1 0 None 0 s).1 = -5
  /\ (setLaserEnable true s).1 = true
  /\ (setIntegrationTimeMS 100 s).1 = true
  /\ (wp_set_laser_enable (sample_driver s) 0 1).1 = WP_SUCCESS
  /\ (wp_set_integration_time_ms (sample_driver s) 0 100).1 = WP_SUCCESS.
Proof. vm_compute. repeat split; reflexivity. Qed.

(** C9, on a failing input. The field "Model" holds six characters and the
    caller's buffer two.  [wp_get_model] answers with the storage code;
    [wp_get_eeprom_field] answers WP_SUCCESS if [strncpy_s] returns at all. *)
Theorem wp_get_eeprom_field_overlong_value_reports_success
    (toLower : string -> string)
    (strncpy_s : list ascii -> Z -> string -> Z -> option (list ascii)) :
  let driver :=
    sample_driver (sample_spectrometer 0x1000 4 (sample_eeprom 10 20 true) []) in
  let valueOut := ["x"; "x"]%char in
  (wp_get_model driver 0 valueOut 2).1 = WP_ERROR_INSUFFICIENT_STORAGE
  /\ wp_get_eeprom_field toLower strncpy_s driver 0 "Model" valueOut 2
     = match strncpy_s valueOut 2 "WP-785"%string 6 with
       | Some out => Some (WP_SUCCESS, out)
       | None => None
       end.
Proof.
  cbv zeta. split; [vm_compute; reflexivity |].
  unfold wp_get_eeprom_field. simpl. rewrite String.eqb_refl. reflexivity.
Qed.

(** C4 at 0 (below the range) and at 20000000 (above it). *)
Lemma setIntegrationTimeMS_clamps_out_of_range_witness :
  let s :=
    sample_spectrometer 0x1000 4 (sample_eeprom 10 20 true) [UsbData []] in
  (integrationTimeMS (setIntegrationTimeMS 0 s).2 = 1
   /\ integrationTimeMS (setIntegrationTimeMS 0 s).2 <> 0)
  /\ (integrationTimeMS (setIntegrationTimeMS 20000000 s).2 = 2 ^ 24 - 1
      /\ integrationTimeMS (setIntegrationTimeMS 20000000 s).2 <> 20000000).
Proof.
  cbv zeta.
  set (s := sample_spectrometer 0x1000 4 (sample_eeprom 10 20 true) [UsbData []]).
  split.
  - destruct (setIntegrationTimeMS_clamps_out_of_range 0 s
                ltac:(left; reflexivity)) as (Hstored & Hne & _).
    split; [exact Hstored | exact Hne].
  - destruct (setIntegrationTimeMS_clamps_out_of_range 20000000 s
                ltac:(right; reflexivity)) as (Hstored & Hne & _).
    split; [exact Hstored | exact Hne].
Defined.

(** C6 at -1, 0 and 32767: the words are 0xFFFF, 0x0000 and 0x7FFF. *)
Lemma setDetectorOffset_sends_twos_complement_witness :
  let s :=
    sample_spectrometer 0x1000 4 (sample_eeprom 10 20 true) [UsbData []] in
  transfers (udev (setDetectorOffset (-1) s).2) = [command s 0xb6 0xFFFF 0]
  /\ transfers (udev (setDetectorOffset 0 s).2) = [command s 0xb6 0x0000 0]
  /\ transfers (udev (setDetectorOffsetOdd 32767 s).2)
     = [command s 0x9c 0x7FFF 0].
Proof.
  cbv zeta.
  set (s := sample_spectrometer 0x1000 4 (sample_eeprom 10 20 true) [UsbData []]).
  split; [| split].
  - exact (proj1 (setDetectorOffset_sends_twos_complement (-1) s
                    ltac:(split; [discriminate | reflexivity]))).
  - exact (proj1 (setDetectorOffset_sends_twos_complement 0 s
                    ltac:(split; [discriminate | reflexivity]))).
  - exact (proj1 (proj2 (setDetectorOffset_sends_twos_complement 32767 s
                           ltac:(split; [discriminate | reflexivity])))).
Defined.

(** C8 on an ARM session whose device fails the get transfer. *)
Lemma arm_padding_and_empty_get_witness :
  let s :=
    sample_spectrometer 0x4000 4 (sample_eeprom 10 20 true) [UsbError 5] in
  isARM s = true
  /\ transfers (udev (sendCmd 0xad 0 0 None 0 s).2)
     = [Control {| cm_requesttype := HOST_TO_DEVICE; cm_request := 0xad;
                   cm_value := 0; cm_index := 0;
                   cm_bytes := Some [0; 0; 0; 0; 0; 0; 0; 0];
                   cm_size := 8; cm_timeout := 1000 |}]
  /\ (getCmd 0xad 0 0 0 s).1 = [].
Proof.
  cbv zeta.
  set (s := sample_spectrometer 0x4000 4 (sample_eeprom 10 20 true) [UsbError 5]).
  destruct (arm_padding_and_empty_get 0xad 0 0 0 s) as [Harm Hempty].
  split; [reflexivity |]. split.
  - exact (proj1 (Harm eq_refl)).
  - apply Hempty. vm_compute. discriminate.
Defined.

(** C5, against the claim's rounding. The gain 7/1024 has integer part 0
    and fraction 1.75/256: the word sent is 0x0001, low byte 1, where
    rounding to nearest gives 2. *)
Lemma setDetectorGain_low_byte_is_not_rounded :
  let value := (7 # 1024)%Q in
  let s :=
    sample_spectrometer 0x1000 4 (sample_eeprom 10 20 true) [UsbData []] in
  (0 <= value)%Q /\ (value < 256)%Q
  /\ transfers (udev (setDetectorGain value s).2) = [command s 0xb7 0x0001 0]
  /\ Z.shiftr 0x0001 8 = cast_int value
  /\ Z.land 0x0001 0xff = 1
  /\ round_nearest ((value - inject_Z (cast_int value)) * 256) = 2.
Proof. vm_compute. repeat split; (reflexivity || discriminate). Qed.

(** C5 as amended, at 7/1024 (inside the domain), at 256 and at plus
    infinity (outside). *)
Lemma setDetectorGain_encodes_by_truncation_witness :
  let s :=
    sample_spectrometer 0x1000 4 (sample_eeprom 10 20 true) [UsbData []] in
  transfers (udev (setDetectorGain (7 # 1024) s).2) = [command s 0xb7 1 0]
  /\ setDetectorGain (256 # 1) s = (false, s)
  /\ setDetectorGain PlusInfinity s = (false, s).
Proof.
  cbv zeta.
  set (s := sample_spectrometer 0x1000 4 (sample_eeprom 10 20 true) [UsbData []]).
  split; [| split].
  - destruct (proj1 (setDetectorGain_encodes_by_truncation (7 # 1024) s)
                ltac:(split; [discriminate | reflexivity]))
      as (_ & _ & Hsent & _).
    exact Hsent.
  - exact (proj1 (proj1 (proj2 (setDetectorGain_encodes_by_truncation
                                  (256 # 1) s))
                    ltac:(right; discriminate))).
  - destruct (proj2 (proj2 (setDetectorGain_encodes_by_truncation (256 # 1) s)))
      as (_ & _ & Hinf & _).
    exact Hinf.
Defined.

(** C7, against the claim. A cooled unit whose calibrated minimum (10)
    exceeds its calibrated maximum (5), the gate still false: the defaulted
    setpoint is rejected by the range check, the enable is the only transfer
    and the gate stays false. *)
Lemma setTECEnable_sends_no_setpoint_when_min_exceeds_max :
  let s :=
    sample_spectrometer 0x1000 4 (sample_eeprom 10 5 true)
      [UsbData []; UsbData []] in
  hasCooling (eeprom s) = true
  /\ detectorTECSetpointHasBeenSet s = false
  /\ setDetectorTECSetpointDegC (minTemperatureDegC (eeprom s)) s = (false, s)
  /\ transfers (udev (setTECEnable true s).2) = [command s 0xd6 1 0]
  /\ detectorTECSetpointHasBeenSet (setTECEnable true s).2 = false.
Proof. vm_compute. repeat split; reflexivity. Qed.

(** C7 as amended, on a cooled unit calibrated for 10..20 degrees (setpoint
    word 2500, then the enable) and on an uncooled one (nothing sent). *)
Lemma setTECEnable_defaults_setpoint_first_witness :
  let cooled :=
    sample_spectrometer 0x1000 4 (sample_eeprom 10 20 true)
      [UsbData []; UsbData []] in
  let uncooled :=
    sample_spectrometer 0x1000 4 (sample_eeprom 10 20 false)
      [UsbData []; UsbData []] in
  transfers (udev (setTECEnable true cooled).2)
  = [command cooled 0xd8 2500 0; command cooled 0xd6 1 0]
  /\ setTECEnable true uncooled = (false, uncooled).
Proof.
  cbv zeta. split.
  - exact (proj1 (proj2 (setTECEnable_defaults_setpoint_first true
                           (sample_spectrometer 0x1000 4
                              (sample_eeprom 10 20 true)
                              [UsbData []; UsbData []]))
                    eq_refl eq_refl ltac:(discriminate))).
  - exact (proj1 (setTECEnable_defaults_setpoint_first true
                    (sample_spectrometer 0x1000 4 (sample_eeprom 10 20 false)
                       [UsbData []; UsbData []]))
             eq_refl).
Defined.

(** ** Further runs *)

(** A complete acquisition in two chunks: ACQUIRE goes out, the first bulk
    read asks for all 8 bytes and gets 4, the second asks for the remaining
    4, both with a timeout of 2 x 1 + 2000 ms; the pixels 10, 20, 30, 40 come
    back as 20, 20, 30, 40. *)
Example getSpectrum_two_chunks :
  let s :=
    sample_spectrometer 0x1000 4 (sample_eeprom 10 20 true)
      [UsbData []; UsbData [10; 0; 20; 0]; UsbData [30; 0; 40; 0]] in
  (getSpectrum s).1 = Spectrum [20; 20; 30; 40]
  /\ transfers (udev (getSpectrum s).2)
     = [command s 0xad 0 0;
        BulkRead {| bm_ep := 0x82; bm_size := 8; bm_timeout := 2002 |};
        BulkRead {| bm_ep := 0x82; bm_size := 4; bm_timeout := 2002 |}].
Proof. vm_compute. split; reflexivity. Qed.

(** The first bulk read fails outright, or is odd: the empty vector. *)
Lemma getSpectrum_first_read_fails_witness :
  (getSpectrum
     (sample_spectrometer 0x1000 4 (sample_eeprom 10 20 true)
        [UsbData []; UsbError 5])).1 = Spectrum []
  /\ (getSpectrum
        (sample_spectrometer 0x1000 4 (sample_eeprom 10 20 true)
           [UsbData []; UsbData [10; 0; 20]])).1 = Spectrum [].
Proof.
  split.
  - apply (getSpectrum_first_read_fails
             (sample_spectrometer 0x1000 4 (sample_eeprom 10 20 true)
                [UsbData []; UsbError 5])).
    left. vm_compute. discriminate.
  - apply (getSpectrum_first_read_fails
             (sample_spectrometer 0x1000 4 (sample_eeprom 10 20 true)
                [UsbData []; UsbData [10; 0; 20]])).
    right. vm_compute. discriminate.
Defined.

(** One byte instead of two: raw -1, temperature -999. *)
Lemma getDetectorTemperatureDegC_short_read_witness :
  let s :=
    sample_spectrometer 0x1000 4 (sample_eeprom 10 20 true) [UsbData [1]] in
  (getDetectorTemperatureRaw 2 s).1 = -1
  /\ (getDetectorTemperatureDegC 2 7 s).1 = Return ((-999) # 1)%Q.
Proof.
  cbv zeta.
  exact (getDetectorTemperatureDegC_short_read 2 7
           (sample_spectrometer 0x1000 4 (sample_eeprom 10 20 true)
              [UsbData [1]])
           ltac:(vm_compute; reflexivity)).
Defined.

(** Three characters into a buffer of five, and into a buffer of two. *)
Lemma exportString_fits_witness :
  exportString "abc" ["x"; "x"; "x"; "x"; "x"]%char 5
  = (WP_SUCCESS, ["a"; "b"; "c"; Ascii.zero; Ascii.zero]%char).
Proof.
  apply (exportString_fits "abc" ["x"; "x"; "x"; "x"; "x"]%char 5);
    vm_compute; discriminate.
Defined.

Lemma exportString_too_long_witness :
  (exportString "abc" ["x"; "x"]%char 2).1 = WP_ERROR_INSUFFICIENT_STORAGE.
Proof.
  apply (exportString_too_long "abc" ["x"; "x"]%char 2).
  split; [discriminate | reflexivity].
Defined.

(** Four wavelengths into a buffer of four, and into a buffer of three. *)
Lemma wp_get_wavelengths_fits_witness :
  let s := sample_spectrometer 0x1000 4 (sample_eeprom 10 20 true) [] in
  wp_get_wavelengths (sample_driver s) 0 [0; 0; 0; 0]%Q 4
  = (WP_SUCCESS, wavelengths s).
Proof.
  cbv zeta.
  apply (wp_get_wavelengths_fits
           (sample_driver
              (sample_spectrometer 0x1000 4 (sample_eeprom 10 20 true) []))
           0 (sample_spectrometer 0x1000 4 (sample_eeprom 10 20 true) [])
           [0; 0; 0; 0]%Q 4);
    [reflexivity | vm_compute; discriminate | vm_compute; discriminate].
Defined.

Lemma wp_get_wavelengths_too_long_witness :
  let s := sample_spectrometer 0x1000 4 (sample_eeprom 10 20 true) [] in
  (wp_get_wavelengths (sample_driver s) 0 [0; 0; 0]%Q 3).1
  = WP_ERROR_INSUFFICIENT_STORAGE.
Proof.
  cbv zeta.
  apply (wp_get_wavelengths_too_long
           (sample_driver
              (sample_spectrometer 0x1000 4 (sample_eeprom 10 20 true) []))
           0 (sample_spectrometer 0x1000 4 (sample_eeprom 10 20 true) [])
           [0; 0; 0]%Q 3);
    [reflexivity | split; [discriminate | reflexivity]].
Defined.

(* ===================================================================== *)
(** * The rest of the session and of the C surface *)
(* ===================================================================== *)

(** The bytes just received, read back from the front of the buffer. *)
Lemma take_overwrite (got buf : list Z) :
  take (Z.to_nat (Z.of_nat (length got))) (overwrite got buf) = got.
Proof. unfold overwrite. rewrite Nat2Z.id. apply take_app_length. Qed.

Section CommandChannel.
Context {float double : Type} `{FloatOps float}.

Local Abbreviation Spectrometer := (Spectrometer float double).

(** [getCmd] in full: one transfer goes out, the reply is consumed, and the
    result is the reply's bytes cut to the length asked for (nothing for an
    error or a timeout). *)
Lemma getCmd_run (request value index len : Z) (s : Spectrometer) :
  getCmd request value index len s
  = (reply_bytes (asked_len s len) (head (replies (udev s))),
     on_wire s (transfers (udev s) ++ [query s request value index len])
       (tail (replies (udev s)))).
Proof.
  unfold getCmd, query, asked_len, on_wire. run_method.
  unfold usb_control_msg, usb_exchange.
  destruct (isARM s); simpl;
    destruct (replies (udev s)) as [| [e | bytes] rs]; simpl;
    try reflexivity;
    rewrite take_overwrite; reflexivity.
Qed.

Lemma on_wire_id (s : Spectrometer) :
  on_wire s (transfers (udev s)) (replies (udev s)) = s.
Proof. destruct s as [[log script] ? ? ? ? ? ? ? ?]. reflexivity. Qed.

(** [getCmd] hands back the device's bytes cut to the length it asked for:
    the caller's [len] off the ARM family, and [max 8 len] on it, so an ARM
    answer can be longer than the caller asked. *)
Theorem getCmd_result_is_cut_to_request (request value index len : Z)
    (s : Spectrometer) (bytes : list Z) (rest : list usb_reply) :
  replies (udev s) = UsbData bytes :: rest ->
  0 <= len ->
  let data := (getCmd request value index len s).1 in
  data = take (Z.to_nat (asked_len s len)) bytes
  /\ (isARM s = false -> Z.of_nat (length data) <= len)
  /\ (isARM s = true -> Z.of_nat (length data) <= Z.max 8 len)
  /\ replies (udev (getCmd request value index len s).2) = rest.
Proof.
  intros Hreply Hlen. cbv zeta. rewrite getCmd_run, Hreply. simpl.
  split; [reflexivity |].
  unfold asked_len, MIN_ARM_LEN.
  split; [| split; [| reflexivity]]; intros ->; rewrite length_take; lia.
Qed.

(** ** Reading the EEPROM *)

Lemma readEEPROM_pages_run (PAGE_SIZE : Z) (n : nat) :
  forall (page : Z) (acc : list (list Z)) (s : Spectrometer),
    readEEPROM_pages n page PAGE_SIZE acc s
    = (acc ++ ((fun j => reply_bytes (asked_len s PAGE_SIZE)
                           (replies (udev s) !! j)) <$> seq 0 n),
       on_wire s
         (transfers (udev s)
          ++ ((fun j => query s 0xff 0x01 (page + Z.of_nat j) PAGE_SIZE)
                <$> seq 0 n))
         (drop n (replies (udev s)))).
Proof.
  induction n as [| n IH]; intros page acc s.
  - simpl. unfold ret. rewrite !app_nil_r, on_wire_id. reflexivity.
  - cbn [readEEPROM_pages]. unfold bind at 1. rewrite getCmd_run.
    rewrite IH. clear IH.
    cbn [seq fmap list_fmap]. rewrite <- !fmap_S_seq, <- !list_fmap_compose.
    change (udev (on_wire s ?a ?b)) with {| transfers := a; replies := b |}.
    cbn [transfers replies].
    rewrite <- !app_assoc. cbn [app].
    rewrite Z.add_0_r.
    f_equal.
    + f_equal. f_equal.
      * destruct (replies (udev s)); reflexivity.
      * apply list_fmap_ext. intros _ j _. cbn.
        destruct (replies (udev s)); reflexivity.
    + unfold on_wire, set_udev. cbn.
      f_equal. f_equal.
      * f_equal. f_equal. apply list_fmap_ext. intros _ j _.
        unfold compose, query.
        replace (page + 1 + Z.of_nat j) with (page + Z.of_nat (S j)) by lia.
        reflexivity.
      * destruct (replies (udev s)); simpl; [rewrite drop_nil |]; reflexivity.
Qed.

(** [readEEPROM] always performs [MAX_PAGES] page transfers, page [j] asked
    with opcode 0xff, value 1 and index [j]; a transfer that fails, or that
    the device never answers, contributes an empty page and does not stop
    the loop.  [parse] then sees exactly [MAX_PAGES] pages, and its verdict
    is the result. *)
Theorem readEEPROM_reads_every_page (MAX_PAGES PAGE_SIZE : Z)
    (parse : list (list Z) -> EEPROM float -> bool * EEPROM float)
    (s : Spectrometer) :
  let n := Z.to_nat MAX_PAGES in
  let pages :=
    (fun j => reply_bytes (asked_len s PAGE_SIZE) (replies (udev s) !! j))
      <$> seq 0 n in
  let s' := (readEEPROM MAX_PAGES PAGE_SIZE parse s).2 in
  length pages = n
  /\ (readEEPROM MAX_PAGES PAGE_SIZE parse s).1 = (parse pages (eeprom s)).1
  /\ eeprom s' = (parse pages (eeprom s)).2
  /\ transfers (udev s')
     = transfers (udev s)
       ++ ((fun j => query s 0xff 0x01 (Z.of_nat j) PAGE_SIZE) <$> seq 0 n)
  /\ replies (udev s') = drop n (replies (udev s)).
Proof.
  cbv zeta. split; [rewrite length_fmap, length_seq; reflexivity |].
  set (pages := _ <$> seq 0 (Z.to_nat MAX_PAGES)).
  assert (E : readEEPROM MAX_PAGES PAGE_SIZE parse s
              = ((parse pages (eeprom s)).1,
                 set_eeprom (parse pages (eeprom s)).2
                   (on_wire s
                      (transfers (udev s)
                       ++ ((fun j => query s 0xff 0x01 (Z.of_nat j) PAGE_SIZE)
                             <$> seq 0 (Z.to_nat MAX_PAGES)))
                      (drop (Z.to_nat MAX_PAGES) (replies (udev s)))))).
  { unfold readEEPROM. run_method. rewrite readEEPROM_pages_run.
    cbn [app]. change (eeprom (on_wire s ?a ?b)) with (eeprom s).
    fold pages. destruct (parse pages (eeprom s)) as [[|] e]; reflexivity. }
  rewrite E. repeat split; reflexivity.
Qed.

End CommandChannel.

Section MoreSettors.
Context {float double : Type} `{FloatOps float}.

Local Abbreviation Spectrometer := (Spectrometer float double).

(** ** Integration time *)

(** Whatever the input and whatever the device answers, the integration
    time stored afterwards lies in [1, 2^24 - 1], it is the input itself
    when the input lies there, and the two words sent with opcode 0xb2
    recombine to the stored value. *)
Theorem setIntegrationTimeMS_words_recombine (ms : Z) (s : Spectrometer) :
  let s' := (setIntegrationTimeMS ms s).2 in
  let stored := integrationTimeMS s' in
  1 <= stored <= 2 ^ 24 - 1
  /\ (1 <= ms <= 2 ^ 24 - 1 -> stored = ms)
  /\ exists lsw msw,
       transfers (udev s') = transfers (udev s) ++ [command s 0xb2 lsw msw]
       /\ 0 <= lsw < 2 ^ 16 /\ 0 <= msw < 2 ^ 8
       /\ msw * 2 ^ 16 + lsw = stored.
Proof.
  cbv zeta.
  destruct (setIntegrationTimeMS_run ms s) as [Hs Ht]. cbv zeta in Hs, Ht.
  pose proof (clamp_range ms 1 (MAX_UINT24 - 1) ltac:(unfold MAX_UINT24; lia))
    as Hc.
  unfold MAX_UINT24 in *. rewrite Hs.
  split; [lia |]. split; [intros Hin; apply clamp_inside; lia |].
  destruct (split24 (clamp ms 1 (16777216 - 1)) ltac:(lia))
    as (Hl & Hm & Hlr & Hmr & Hsum).
  cbv zeta in Hl, Hm, Hlr, Hmr, Hsum. rewrite Hl, Hm in *.
  eexists _, _. split; [exact Ht |]. repeat split; lia.
Qed.

(** After [setIntegrationTimeMS], whatever its input, the acquisition
    timeout is twice the clamped time plus 2000 ms: it lies between 2002 and
    33556430 and the conversion to [int] never wraps. *)
Theorem timeout_after_setIntegrationTimeMS (ms : Z) (s : Spectrometer) :
  let s' := (setIntegrationTimeMS ms s).2 in
  (generateTimeoutMS s').1 = 2 * clamp ms 1 (2 ^ 24 - 1) + 2000
  /\ 2002 <= (generateTimeoutMS s').1 <= 33556430.
Proof.
  cbv zeta.
  destruct (setIntegrationTimeMS_run ms s) as [Hs _]. cbv zeta in Hs.
  pose proof (clamp_range ms 1 (MAX_UINT24 - 1) ltac:(unfold MAX_UINT24; lia))
    as Hc.
  unfold MAX_UINT24 in *.
  unfold generateTimeoutMS. run_method. cbn [fst]. rewrite Hs.
  change (2 ^ 24 - 1) with (16777216 - 1).
  set (t := clamp ms 1 (16777216 - 1)) in *.
  unfold int32, uint32.
  rewrite (Z.mod_small (2 * t + 2000)) by lia.
  rewrite Z.mod_small by lia. lia.
Qed.

(** ** Laser *)

(** [setLaserEnable] sends one transfer (opcode 0xbe, value 1 or 0) and
    records the requested state in the session whatever the device answered;
    the integration time and the setpoint gate are left alone. *)
Theorem setLaserEnable_records_the_request (flag : bool) (s : Spectrometer) :
  let s' := (setLaserEnable flag s).2 in
  laserEnabled s' = flag
  /\ transfers (udev s')
     = transfers (udev s) ++ [command s 0xbe (if flag then 1 else 0) 0]
  /\ replies (udev s') = tail (replies (udev s))
  /\ integrationTimeMS s' = integrationTimeMS s
  /\ detectorTECSetpointHasBeenSet s' = detectorTECSetpointHasBeenSet s.
Proof.
  cbv zeta. unfold setLaserEnable. run_method.
  destruct (sendCmd_run 0xbe (if flag then 1 else 0) 0 s) as (d & E & Ht & Hr).
  rewrite E. simpl. repeat split; assumption.
Qed.

(** ** High-gain mode *)

(** [setHighGainMode] is for the InGaAs family (product id 0x2000) only: on
    any other it returns false, sends nothing and changes nothing; on InGaAs
    it sends opcode 0xeb with value 1 or 0. *)
Theorem setHighGainMode_only_on_InGaAs (flag : bool) (s : Spectrometer) :
  (pid s <> 0x2000 -> setHighGainMode flag s = (false, s))
  /\ (pid s = 0x2000 ->
      (setHighGainMode flag s).1 = true
      /\ transfers (udev (setHighGainMode flag s).2)
         = transfers (udev s) ++ [command s 0xeb (if flag then 1 else 0) 0]).
Proof.
  unfold setHighGainMode, isInGaAs. run_method. split; intros Hpid.
  - destruct (Z.eqb_spec (pid s) 8192); [contradiction | reflexivity].
  - destruct (Z.eqb_spec (pid s) 8192); [| contradiction]. simpl.
    run_method.
    destruct (sendCmd_run 0xeb (if flag then 1 else 0) 0 s) as (d & E & Ht & _).
    rewrite E. simpl. split; [reflexivity | exact Ht].
Qed.

(** ** Thermoelectric cooler *)

(** [setDetectorTECSetpointDegC]: without the cooling flag, or outside the
    calibrated range, it returns false, sends nothing and changes nothing.
    On a cooled unit and inside the range it sends one word of at most 12
    bits with opcode 0xd8, returns true and sets the gate, whatever the
    device answered. *)
Theorem setDetectorTECSetpointDegC_range_and_gate (degC : Z)
    (s : Spectrometer) :
  (hasCooling (eeprom s) = false
   \/ degC < minTemperatureDegC (eeprom s)
   \/ maxTemperatureDegC (eeprom s) < degC ->
   setDetectorTECSetpointDegC degC s = (false, s))
  /\ (hasCooling (eeprom s) = true ->
      minTemperatureDegC (eeprom s) <= degC <= maxTemperatureDegC (eeprom s) ->
      let s' := (setDetectorTECSetpointDegC degC s).2 in
      (setDetectorTECSetpointDegC degC s).1 = true
      /\ detectorTECSetpointHasBeenSet s' = true
      /\ exists word,
           0 <= word < 2 ^ 12
           /\ transfers (udev s')
              = transfers (udev s) ++ [command s 0xd8 word 0]).
Proof.
  split.
  - intros [Hcool | Hout].
    + unfold setDetectorTECSetpointDegC. run_method. rewrite Hcool.
      reflexivity.
    + apply setDetectorTECSetpointDegC_rejects. exact Hout.
  - intros Hcool Hin. cbv zeta.
    destruct (setDetectorTECSetpointDegC_run degC s Hcool Hin)
      as (d & E & Ht & _).
    cbv zeta in Ht. rewrite E. simpl.
    split; [reflexivity |]. split; [reflexivity |].
    eexists. split; [| exact Ht].
    rewrite land_fff. apply Z.mod_pos_bound. lia.
Qed.

(** With the gate already set, [setTECEnable] on a cooled unit sends the
    enable and nothing else. *)
Lemma setTECEnable_gate_set (flag : bool) (s : Spectrometer) :
  hasCooling (eeprom s) = true ->
  detectorTECSetpointHasBeenSet s = true ->
  exists d,
    setTECEnable flag s = (true, set_udev d s)
    /\ transfers d
       = transfers (udev s) ++ [command s 0xd6 (if flag then 1 else 0) 0].
Proof.
  intros Hcool Hgate. unfold setTECEnable. run_method.
  rewrite Hcool, Hgate. simpl. run_method.
  destruct (sendCmd_run 0xd6 (if flag then 1 else 0) 0 s) as (d & E & Ht & _).
  rewrite E. exists d. split; [reflexivity | exact Ht].
Qed.

(** The setpoint is defaulted once: on a cooled unit whose calibrated
    minimum does not exceed its maximum, a [setTECEnable] that follows
    another [setTECEnable] sends only the enable transfer, whatever the gate
    was before the first call and whatever the device answered. *)
Theorem setTECEnable_defaults_once (first second : bool) (s : Spectrometer) :
  hasCooling (eeprom s) = true ->
  minTemperatureDegC (eeprom s) <= maxTemperatureDegC (eeprom s) ->
  let s1 := (setTECEnable first s).2 in
  let s2 := (setTECEnable second s1).2 in
  detectorTECSetpointHasBeenSet s1 = true
  /\ transfers (udev s2)
     = transfers (udev s1) ++ [command s 0xd6 (if second then 1 else 0) 0].
Proof.
  intros Hcool Hle. cbv zeta.
  assert (Hs1 : exists d g,
             (setTECEnable first s).2
             = set_udev d (set_detectorTECSetpointHasBeenSet g s)
             /\ (g = true \/ detectorTECSetpointHasBeenSet s = true)).
  { destruct (detectorTECSetpointHasBeenSet s) eqn:Hgate.
    - destruct (setTECEnable_gate_set first s Hcool Hgate) as (d & E & _).
      exists d, true. rewrite E. split; [| left; reflexivity].
      destruct s; simpl in *; subst; reflexivity.
    - destruct (setDetectorTECSetpointDegC_run
                  (minTemperatureDegC (eeprom s)) s Hcool ltac:(lia))
        as (d & E & _ & _).
      unfold setTECEnable. run_method. rewrite Hcool, Hgate. simpl.
      rewrite E. run_method.
      set (s1 := set_detectorTECSetpointHasBeenSet true (set_udev d s)).
      destruct (sendCmd_run 0xd6 (if first then 1 else 0) 0 s1)
        as (d2 & E2 & _ & _).
      rewrite E2. exists d2, true. split; [reflexivity | left; reflexivity]. }
  destruct Hs1 as (d & g & Es1 & Hg). rewrite Es1.
  assert (Hgate1 : detectorTECSetpointHasBeenSet
                     (set_udev d (set_detectorTECSetpointHasBeenSet g s))
                   = true).
  { simpl. destruct Hg as [-> | Hg]; [reflexivity |].
    destruct g; [reflexivity |].
    (* the gate is only ever raised *)
    exfalso.
    destruct (setTECEnable_gate_set first s Hcool Hg) as (d' & E' & _).
    rewrite E' in Es1. simpl in Es1.
    apply (f_equal detectorTECSetpointHasBeenSet) in Es1. simpl in Es1.
    congruence. }
  split; [exact Hgate1 |].
  destruct (setTECEnable_gate_set second
              (set_udev d (set_detectorTECSetpointHasBeenSet g s))
              Hcool Hgate1) as (d2 & E2 & Ht2).
  rewrite E2. simpl. exact Ht2.
Qed.

End MoreSettors.

Lemma inject_Z_sub_mul (a b c : Z) :
  (inject_Z (a - b * c) == inject_Z a - inject_Z b * inject_Z c)%Q.
Proof.
  replace (a - b * c) with (a + - (b * c)) by lia.
  rewrite inject_Z_plus, inject_Z_opp, inject_Z_mult. reflexivity.
Qed.

Section MoreGain.
Context {float double : Type} `{FloatOps float}.

Local Abbreviation Spectrometer := (Spectrometer float double).

(** A gain on the 1/256 grid survives the trip exactly: for a gain in
    [0, 256) that is [k / 256] for an integer [k], the word sent is [k]
    itself (by both gain settors) and it decodes to the gain. *)
Theorem gain_on_the_grid_is_exact (value : Q) (k : Z) (s : Spectrometer) :
  (0 <= value)%Q -> (value < 256)%Q -> (value * 256 == inject_Z k)%Q ->
  gain_word value = k
  /\ (gain_decode (gain_word value) == value)%Q
  /\ transfers (udev (setDetectorGain value s).2)
     = transfers (udev s) ++ [command s 0xb7 k 0]
  /\ transfers (udev (setDetectorGainOdd value s).2)
     = transfers (udev s) ++ [command s 0x9d k 0].
Proof.
  intros H0 H256 Hgrid.
  destruct (gain_word_in_range value H0 H256) as (Hm & Hl & Hw).
  cbv zeta in Hm, Hl, Hw.
  assert (Hfrac : ((value - inject_Z (Qfloor value)) * 256
                   == inject_Z (k - 256 * Qfloor value))%Q).
  { rewrite inject_Z_sub_mul.
    change (inject_Z 256) with 256%Q. lra. }
  assert (Hlsb : Qfloor ((value - inject_Z (Qfloor value)) * 256)
                 = k - 256 * Qfloor value).
  { rewrite (Qfloor_comp _ _ Hfrac). apply Qfloor_Z. }
  rewrite Hlsb in Hw, Hl.
  assert (Hk : gain_word value = k) by lia.
  split; [exact Hk |]. split.
  - rewrite Hw, gain_decode_word by exact Hl.
    rewrite inject_Z_sub_mul.
    change (inject_Z 256) with 256%Q.
    unfold Qdiv. change (/ 256)%Q with (1 # 256)%Q. lra.
  - split.
    + unfold setDetectorGain. run_method.
      rewrite (gain_rejected_in_range value H0 H256), Hk.
      destruct (sendCmd_run 0xb7 k 0 s) as (d & E & Ht & _).
      rewrite E. exact Ht.
    + unfold setDetectorGainOdd. run_method.
      rewrite (gain_rejected_in_range value H0 H256), Hk.
      destruct (sendCmd_run 0x9d k 0 s) as (d & E & Ht & _).
      rewrite E. exact Ht.
Qed.

(** The gain word never decreases when the gain grows. *)
Theorem gain_word_is_monotone (low high : Q) :
  (0 <= low)%Q -> (low <= high)%Q -> (high < 256)%Q ->
  gain_word low <= gain_word high.
Proof.
  intros H0 Hle H256.
  assert (Hlow256 : (low < 256)%Q) by lra.
  assert (Hhigh0 : (0 <= high)%Q) by lra.
  destruct (gain_word_in_range low H0 Hlow256) as (Hm1 & Hl1 & ->).
  destruct (gain_word_in_range high Hhigh0 H256) as (Hm2 & Hl2 & ->).
  cbv zeta in *.
  pose proof (Qfloor_resp_le low high Hle) as Hfloor.
  destruct (Z.eq_dec (Qfloor low) (Qfloor high)) as [Heq | Hne]; [| lia].
  rewrite Heq.
  assert (Qfloor ((low - inject_Z (Qfloor high)) * 256)
          <= Qfloor ((high - inject_Z (Qfloor high)) * 256)); [| lia].
  apply Qfloor_resp_le. lra.
Qed.

End MoreGain.

Section MoreGetters.
Context {float double : Type} `{FloatOps float}.

Local Abbreviation Spectrometer := (Spectrometer float double).

(** ** Detector temperature, raw *)

(** [getDetectorTemperatureRaw] is -1 or a 16-bit number; when the device
    answers with at least two bytes it is the first byte times 256 plus the
    second, and any further bytes are ignored. *)
Theorem getDetectorTemperatureRaw_big_endian (len : Z) (s : Spectrometer) :
  let raw := (getDetectorTemperatureRaw len s).1 in
  (raw = -1 \/ 0 <= raw < 2 ^ 16)
  /\ (forall (b0 b1 : Z) (more : list Z) (rest : list usb_reply),
        replies (udev s) = UsbData (b0 :: b1 :: more) :: rest ->
        2 <= len -> 0 <= b0 < 2 ^ 8 -> 0 <= b1 < 2 ^ 8 ->
        raw = b0 * 2 ^ 8 + b1).
Proof.
  cbv zeta. unfold getDetectorTemperatureRaw. run_method.
  rewrite getCmd_run. split.
  - destruct (reply_bytes _ _) as [| d0 [| d1 data]]; simpl; auto.
    right. unfold uint16. apply Z.mod_pos_bound. lia.
  - intros b0 b1 more rest Hreply Hlen Hb0 Hb1. rewrite Hreply. simpl.
    assert (Hasked : 2 <= asked_len s len)
      by (unfold asked_len, MIN_ARM_LEN; destruct (isARM s); lia).
    destruct (Z.to_nat (asked_len s len)) as [| [| n]] eqn:E; try lia.
    simpl. rewrite lor_shiftl_8 by exact Hb1.
    apply uint16_small. lia.
Qed.

(** ** Firmware and FPGA versions *)

Lemma dotted_quad_not_empty (a b c d : string) :
  a +:+ "." +:+ b +:+ "." +:+ c +:+ "." +:+ d <> EmptyString.
Proof. destruct a; discriminate. Qed.

(** [getFirmwareVersion]: an answer of fewer than four bytes (a failed
    transfer included) gives the empty string; an answer of four bytes or
    more gives the first four in reverse order, in decimal, separated by
    dots, which is never the empty string. *)
Theorem getFirmwareVersion_needs_four_bytes (len : Z) (flag : bool)
    (s : Spectrometer) :
  let data := (getCmd 0xc0 (if flag then 1 else 0) 0 len s).1 in
  let version := (getFirmwareVersion len flag s).1 in
  ((length data < 4)%nat -> version = EmptyString)
  /\ (forall (d0 d1 d2 d3 : Z) (more : list Z),
        data = d0 :: d1 :: d2 :: d3 :: more ->
        version
        = pretty d3 +:+ "." +:+ pretty d2 +:+ "." +:+ pretty d1
          +:+ "." +:+ pretty d0
        /\ version <> EmptyString).
Proof.
  cbv zeta. unfold getFirmwareVersion. run_method.
  destruct (getCmd 192 (if flag then 1 else 0) 0 len s) as [data s1].
  cbn [fst]. split.
  - intros Hshort.
    destruct data as [| d0 [| d1 [| d2 [| d3 more]]]]; simpl in *;
      try reflexivity; lia.
  - intros d0 d1 d2 d3 more ->. cbn [fst].
    split; [reflexivity | apply dotted_quad_not_empty].
Qed.

Lemma visible_ascii_chars (data : list Z) :
  Forall (fun a => 0x20 <= Z.of_N (N_of_ascii a) <= 0x7f)
    (list_ascii_of_string (visible_ascii data))
  /\ (length (list_ascii_of_string (visible_ascii data)) <= length data)%nat.
Proof.
  induction data as [| c data [IHchars IHlen]]; simpl.
  - split; [constructor | lia].
  - destruct (Z.leb_spec 0x20 c) as [Hlo | Hlo]; simpl;
      [destruct (Z.leb_spec c 0x7f) as [Hhi | Hhi]; simpl |];
      try (split; [exact IHchars | lia]).
    split; [| lia].
    constructor; [| exact IHchars].
    unfold char_of_byte.
    rewrite N_ascii_embedding by lia.
    rewrite Z2N.id by lia. lia.
Qed.

(** [getFPGAVersion] keeps exactly the bytes between 0x20 and 0x7f: every
    character of its result has a code in that range, and the result is
    never longer than the device's answer (so a failed transfer gives the
    empty string). *)
Theorem getFPGAVersion_keeps_visible_ascii (len : Z) (flag : bool)
    (s : Spectrometer) :
  let data := (getCmd 0xb4 (if flag then 1 else 0) 0 len s).1 in
  let version := list_ascii_of_string (getFPGAVersion len flag s).1 in
  Forall (fun a => 0x20 <= Z.of_N (N_of_ascii a) <= 0x7f) version
  /\ (length version <= length data)%nat.
Proof.
  cbv zeta. unfold getFPGAVersion. run_method.
  destruct (getCmd 180 (if flag then 1 else 0) 0 len s) as [data s1].
  cbn [fst]. apply visible_ascii_chars.
Qed.

End MoreGetters.

(** ** The proxy's lookup *)

(** [Proxy::Driver::getSpectrometer] answers null for every index outside
    the vector, the negative ones included (converted to [size_t] they are
    huge), and the element at the index otherwise. *)
Theorem Proxy_getSpectrometer_bounds {A : Type} (bits : Z)
    (spectrometers : list A) (index : Z) :
  32 <= bits ->
  - 2 ^ 31 <= index < 2 ^ 31 ->
  Z.of_nat (length spectrometers) < 2 ^ 31 ->
  (0 <= index < Z.of_nat (length spectrometers) ->
   Proxy_getSpectrometer bits spectrometers index
   = spectrometers !! Z.to_nat index
   /\ is_Some (Proxy_getSpectrometer bits spectrometers index))
  /\ (index < 0 \/ Z.of_nat (length spectrometers) <= index ->
      Proxy_getSpectrometer bits spectrometers index = None).
Proof.
  intros Hbits Hindex Hsize.
  assert (Hpow : 2 ^ 32 <= 2 ^ bits) by (apply Z.pow_le_mono_r; lia).
  unfold Proxy_getSpectrometer, size_t_of_int. split.
  - intros Hin. rewrite Z.mod_small by lia.
    destruct (Z.geb_spec index (Z.of_nat (length spectrometers))); [lia |].
    split; [reflexivity |]. apply lookup_lt_is_Some. lia.
  - intros [Hneg | Hbig].
    + replace (index mod 2 ^ bits) with (index + 2 ^ bits)
        by (apply Z.mod_unique with (q := -1); lia).
      destruct (Z.geb_spec (index + 2 ^ bits)
                  (Z.of_nat (length spectrometers))); [reflexivity | lia].
    + rewrite Z.mod_small by lia.
      destruct (Z.geb_spec index (Z.of_nat (length spectrometers)));
        [reflexivity | lia].
Qed.

Section MoreWrapper.
Context {float double : Type} `{FloatOps float}.

Local Abbreviation Spectrometer := (Spectrometer float double).
Local Abbreviation Driver := (Driver float double).

(** ** Settors of the C surface *)

Lemma wp_set_code (driver : Driver) (specIndex : Z) (spec : Spectrometer)
    (m : method float double bool) :
  getSpectrometer driver specIndex = Some spec ->
  (wp_set driver specIndex m).1
  = (if (m spec).1 then WP_SUCCESS else WP_ERROR).
Proof.
  intros Hspec. unfold wp_set. rewrite Hspec.
  destruct (m spec) as [[|] spec']; reflexivity.
Qed.

Lemma setDetectorGain_result (value : c_float) (s : Spectrometer) :
  (setDetectorGain value s).1 = negb (gain_rejected value)
  /\ (setDetectorGainOdd value s).1 = negb (gain_rejected value).
Proof.
  unfold setDetectorGain, setDetectorGainOdd. run_method.
  destruct (gain_rejected value); simpl; [split; reflexivity |].
  destruct (sendCmd_run 0xb7 (gain_word value) 0 s) as (d & -> & _).
  destruct (sendCmd_run 0x9d (gain_word value) 0 s) as (d' & -> & _).
  split; reflexivity.
Qed.

Lemma gain_rejected_iff (value : Q) :
  gain_rejected value = true <-> (value < 0)%Q \/ (256 <= value)%Q.
Proof.
  split; [| apply gain_rejected_out_of_range].
  intros Hrej.
  destruct (Qlt_le_dec value 0) as [Hneg | H0]; [left; exact Hneg |].
  destruct (Qlt_le_dec value 256) as [H256 | Hbig]; [| right; exact Hbig].
  rewrite (gain_rejected_in_range value H0 H256) in Hrej. discriminate.
Qed.

(** The guard on every float: a finite value is refused outside [0, 256),
    both infinities are refused, a NaN is not. *)
Lemma gain_rejected_cases (value : c_float) :
  gain_rejected value = true <->
  match value with
  | Finite q => (q < 0)%Q \/ (256 <= q)%Q
  | PlusInfinity | MinusInfinity => True
  | NaN => False
  end.
Proof.
  destruct value as [q | | |].
  - apply gain_rejected_iff.
  - split; reflexivity || constructor.
  - split; reflexivity || constructor.
  - split; [discriminate | intros []].
Qed.

Lemma setTECEnable_result (flag : bool) (s : Spectrometer) :
  (setTECEnable flag s).1 = hasCooling (eeprom s).
Proof.
  unfold setTECEnable. run_method.
  destruct (hasCooling (eeprom s)); [| reflexivity]. simpl. run_method.
  destruct (if negb (detectorTECSetpointHasBeenSet s)
            then _ else _) as [u s1].
  destruct (sendCmd_run 0xd6 (if flag then 1 else 0) 0 s1) as (d & -> & _).
  reflexivity.
Qed.

Lemma setHighGainMode_result (flag : bool) (s : Spectrometer) :
  (setHighGainMode flag s).1 = isInGaAs s.
Proof.
  unfold setHighGainMode. run_method.
  destruct (isInGaAs s); [| reflexivity]. simpl. run_method.
  destruct (sendCmd_run 0xeb (if flag then 1 else 0) 0 s) as (d & -> & _).
  reflexivity.
Qed.

(** On an open session the settors of the C surface that can answer
    WP_ERROR do so exactly when the argument or the unit is refused: the
    gain settors for a gain below 0 or at least 256 (an infinity is one or
    the other, a NaN is neither), the high-gain settor off the InGaAs
    family, the TEC enable without the cooling flag.  In every other case
    they answer WP_SUCCESS. *)
Theorem wp_settors_refuse_exactly (driver : Driver) (specIndex : Z)
    (spec : Spectrometer) (gain : c_float) (value : Z) :
  getSpectrometer driver specIndex = Some spec ->
  ((wp_set_detector_gain driver specIndex gain).1
     = (if gain_rejected gain then WP_ERROR else WP_SUCCESS)
   /\ (wp_set_detector_gain_odd driver specIndex gain).1
      = (if gain_rejected gain then WP_ERROR else WP_SUCCESS)
   /\ (gain_rejected gain = true <->
       match gain with
       | Finite q => (q < 0)%Q \/ (256 <= q)%Q
       | PlusInfinity | MinusInfinity => True
       | NaN => False
       end))
  /\ (wp_set_high_gain_mode driver specIndex value).1
     = (if pid spec =? 0x2000 then WP_SUCCESS else WP_ERROR)
  /\ (wp_set_tec_enable driver specIndex value).1
     = (if hasCooling (eeprom spec) then WP_SUCCESS else WP_ERROR).
Proof.
  intros Hspec.
  unfold wp_set_detector_gain, wp_set_detector_gain_odd,
    wp_set_high_gain_mode, wp_set_tec_enable.
  rewrite !(wp_set_code driver specIndex spec) by exact Hspec.
  destruct (setDetectorGain_result gain spec) as [-> ->].
  rewrite setHighGainMode_result, setTECEnable_result.
  split; [| split; reflexivity].
  split; [| split; [| apply gain_rejected_cases]];
    destruct (gain_rejected gain); reflexivity.
Qed.

(** ** Wavenumbers *)

(** [wp_get_wavenumbers] on an open session: with an excitation of zero or
    less it answers WP_ERROR_NO_LASER and leaves the caller's array alone,
    whatever [len]; otherwise it copies like [wp_get_wavelengths]. *)
Theorem wp_get_wavenumbers_needs_excitation (driver : Driver)
    (specIndex : Z) (spec : Spectrometer) (out : list double) (len : Z) :
  getSpectrometer driver specIndex = Some spec ->
  ((excitationNM (eeprom spec) <= 0)%Q ->
   wp_get_wavenumbers driver specIndex out len = (WP_ERROR_NO_LASER, out))
  /\ ((0 < excitationNM (eeprom spec))%Q ->
      (len <= Z.of_nat (length out) ->
       Z.of_nat (length (wavenumbers spec)) <= len ->
       wp_get_wavenumbers driver specIndex out len
       = (WP_SUCCESS,
          wavenumbers spec ++ drop (length (wavenumbers spec)) out))
      /\ (0 <= len < Z.of_nat (length (wavenumbers spec)) ->
          (wp_get_wavenumbers driver specIndex out len).1
          = WP_ERROR_INSUFFICIENT_STORAGE)).
Proof.
  intros Hspec. unfold wp_get_wavenumbers. rewrite Hspec. split.
  - intros Hnone. apply Qle_bool_iff in Hnone. rewrite Hnone. reflexivity.
  - intros Hlaser.
    destruct (Qle_bool (excitationNM (eeprom spec)) 0) eqn:E.
    { apply Qle_bool_iff in E. lra. }
    split.
    + intros Hout Hfits. rewrite copy_out_fits by (simpl; lia). reflexivity.
    + intros Hlong. apply copy_out_too_long; simpl; lia.
Qed.

(** ** The EEPROM table *)

Lemma wp_get_eeprom_loop_fits (entries : list (string * string)) :
  forall (count : nat) (names values : list string) (len : Z),
    Z.of_nat (count + length entries) <= len ->
    (count + length entries <= length names)%nat ->
    (count + length entries <= length values)%nat ->
    wp_get_eeprom_loop entries count names values len
    = (WP_SUCCESS,
       (take count names ++ entries.*1
          ++ drop (count + length entries) names,
        take count values ++ entries.*2
          ++ drop (count + length entries) values)).
Proof.
  induction entries as [| [name value] entries IH];
    intros count names values len Hlen Hnames Hvalues; simpl in *.
  - rewrite Nat.add_0_r, !take_drop. reflexivity.
  - destruct (Z.geb_spec (Z.of_nat count) len); [lia |].
    rewrite IH by (rewrite ?length_insert; lia).
    rewrite (take_S_r _ count name) by (apply list_lookup_insert_eq; lia).
    rewrite (take_S_r _ count value) by (apply list_lookup_insert_eq; lia).
    rewrite !take_insert_ge, !drop_insert_lt by lia.
    rewrite <- !app_assoc. simpl.
    repeat f_equal; lia.
Qed.

Lemma wp_get_eeprom_loop_too_long (entries : list (string * string)) :
  forall (count : nat) (names values : list string) (len : Z),
    Z.of_nat count <= len ->
    len < Z.of_nat (count + length entries) ->
    (wp_get_eeprom_loop entries count names values len).1
    = WP_ERROR_INSUFFICIENT_STORAGE.
Proof.
  induction entries as [| [name value] entries IH];
    intros count names values len Hcount Hlen; simpl in *.
  - lia.
  - destruct (Z.geb_spec (Z.of_nat count) len); [reflexivity |].
    apply IH; lia.
Qed.

(** [wp_get_eeprom_field_count] is the number of entries, and a
    [wp_get_eeprom] called with that count (and arrays that long) succeeds,
    leaving the names and the values in the map's order at the front of the
    two arrays; with any smaller count it answers
    WP_ERROR_INSUFFICIENT_STORAGE. *)
Theorem wp_get_eeprom_with_the_field_count (driver : Driver) (specIndex : Z)
    (spec : Spectrometer) (names values : list string) :
  getSpectrometer driver specIndex = Some spec ->
  let entries := stringified (eeprom spec) in
  let count := wp_get_eeprom_field_count driver specIndex in
  count = Z.of_nat (length entries)
  /\ ((length entries <= length names)%nat ->
      (length entries <= length values)%nat ->
      wp_get_eeprom driver specIndex names values count
      = (WP_SUCCESS,
         (entries.*1 ++ drop (length entries) names,
          entries.*2 ++ drop (length entries) values)))
  /\ (forall len, 0 <= len < count ->
        (wp_get_eeprom driver specIndex names values len).1
        = WP_ERROR_INSUFFICIENT_STORAGE).
Proof.
  intros Hspec. cbv zeta.
  unfold wp_get_eeprom_field_count, wp_get_eeprom. rewrite Hspec.
  split; [reflexivity |]. split.
  - intros Hnames Hvalues.
    rewrite wp_get_eeprom_loop_fits by (simpl; lia). reflexivity.
  - intros len Hlen. apply wp_get_eeprom_loop_too_long; simpl; lia.
Qed.

(** ** One EEPROM field *)

Lemma find_field_none (toLower : string -> string) (lc : string)
    (entries : list (string * string)) :
  Forall (fun e => toLower e.1 <> lc) entries ->
  find_field toLower lc entries = None.
Proof.
  induction 1 as [| [name value] entries Hne _ IH]; simpl; [reflexivity |].
  destruct (String.eqb_spec lc (toLower name)) as [-> | _];
    [contradiction Hne; reflexivity | exact IH].
Qed.

Lemma find_field_first (toLower : string -> string) (lc : string)
    (before after : list (string * string)) (key value : string) :
  Forall (fun e => toLower e.1 <> lc) before ->
  toLower key = lc ->
  find_field toLower lc (before ++ (key, value) :: after) = Some value.
Proof.
  intros Hbefore Hkey.
  induction Hbefore as [| [name v] before Hne _ IH]; simpl.
  - rewrite Hkey, String.eqb_refl. reflexivity.
  - destruct (String.eqb_spec lc (toLower name)) as [-> | _];
      [contradiction Hne; reflexivity | exact IH].
Qed.

(** [wp_get_eeprom_field] on an open session compares names through
    [Util::toLower].  A name no entry matches gives WP_ERROR with the
    caller's buffer untouched; otherwise the value of the first matching
    entry, in the map's order, is the one handed to [strncpy_s]. *)
Theorem wp_get_eeprom_field_lookup (toLower : string -> string)
    (strncpy_s : list ascii -> Z -> string -> Z -> option (list ascii))
    (driver : Driver) (specIndex : Z) (spec : Spectrometer)
    (name : string) (valueOut : list ascii) (len : Z) :
  getSpectrometer driver specIndex = Some spec ->
  (Forall (fun e => toLower e.1 <> toLower name) (stringified (eeprom spec)) ->
   wp_get_eeprom_field toLower strncpy_s driver specIndex name valueOut len
   = Some (WP_ERROR, valueOut))
  /\ (forall (before after : list (string * string)) (key value : string),
        stringified (eeprom spec) = before ++ (key, value) :: after ->
        Forall (fun e => toLower e.1 <> toLower name) before ->
        toLower key = toLower name ->
        wp_get_eeprom_field toLower strncpy_s driver specIndex name
          valueOut len
        = match strncpy_s valueOut len value
                  (Z.of_nat (String.length value)) with
          | Some out => Some (WP_SUCCESS, out)
          | None => None
          end).
Proof.
  intros Hspec. unfold wp_get_eeprom_field. rewrite Hspec. split.
  - intros Hnone. rewrite find_field_none by exact Hnone. reflexivity.
  - intros before after key value -> Hbefore Hkey.
    rewrite (find_field_first toLower _ before after key value Hbefore Hkey).
    reflexivity.
Qed.

(** ** Closing, versions *)

(** [wp_close_spectrometer] on an open session answers 1, the [true] of
    [Spectrometer::close] converted to [int], whatever the two libusb calls
    do: not WP_SUCCESS (which is 0) and none of the negative codes. *)
Theorem wp_close_spectrometer_answers_1
    (usb_release_interface : usb_dev_handle -> Z -> Z * usb_dev_handle)
    (usb_close : usb_dev_handle -> Z * usb_dev_handle)
    (driver : Driver) (specIndex : Z) (spec : Spectrometer) :
  getSpectrometer driver specIndex = Some spec ->
  (wp_close_spectrometer usb_release_interface usb_close driver specIndex).1
  = 1.
Proof.
  intros Hspec. unfold wp_close_spectrometer, close. rewrite Hspec.
  run_method.
  destruct (usb_release_interface (udev spec) 0) as [rc d].
  destruct (usb_close d) as [rc' d']. reflexivity.
Qed.

(** When the device gives no byte to the version request (the transfer
    fails, times out, or comes back empty), [wp_get_firmware_version] and
    [wp_get_fpga_version] answer WP_ERROR and leave the caller's buffer
    alone. *)
Theorem wp_get_versions_without_answer (len : Z) (flag : bool)
    (driver : Driver) (specIndex : Z) (spec : Spectrometer)
    (value : list ascii) (n : Z) :
  getSpectrometer driver specIndex = Some spec ->
  (forall bytes, head (replies (udev spec)) = Some (UsbData bytes) ->
                 bytes = []) ->
  (wp_get_firmware_version len flag driver specIndex value n).1
  = (WP_ERROR, value)
  /\ (wp_get_fpga_version len flag driver specIndex value n).1
     = (WP_ERROR, value).
Proof.
  intros Hspec Hsilent.
  assert (Hnone : forall asked,
             reply_bytes asked (head (replies (udev spec))) = []).
  { intros asked. destruct (head (replies (udev spec))) as [[e | bytes] |];
      try reflexivity.
    rewrite (Hsilent bytes eq_refl). simpl. apply take_nil. }
  unfold wp_get_firmware_version, wp_get_fpga_version, wp_get_version,
    getFirmwareVersion, getFPGAVersion.
  rewrite Hspec. run_method. rewrite !getCmd_run, !Hnone. simpl.
  split; reflexivity.
Qed.

End MoreWrapper.

(** ** Acquisition, in general *)

Lemma encode_le_length (pixel_values : list Z) :
  length (encode_le pixel_values) = (2 * length pixel_values)%nat.
Proof.
  unfold encode_le.
  induction pixel_values as [| p ps IH]; simpl; [reflexivity |].
  rewrite IH. lia.
Qed.

(** Decoding undoes the detector's encoding. *)
Lemma decode_pixels_encode_le (pixel_values : list Z) :
  Forall (fun p => 0 <= p < 2 ^ 16) pixel_values ->
  decode_pixels (encode_le pixel_values) = pixel_values.
Proof.
  unfold encode_le.
  induction 1 as [| p ps Hp _ IH]; simpl; [reflexivity |].
  rewrite IH. f_equal.
  assert (Hlo : 0 <= p mod 2 ^ 8 < 2 ^ 8) by (apply Z.mod_pos_bound; lia).
  rewrite Z.lor_comm, lor_shiftl_8 by exact Hlo.
  rewrite uint16_small; pose proof (Z.div_mod p (2 ^ 8) ltac:(lia)); lia.
Qed.

(** No more pixels come out than byte pairs went in. *)
Lemma decode_pixels_length (n : nat) :
  forall bytes : list Z,
    (length bytes <= n)%nat ->
    (2 * length (decode_pixels bytes) <= length bytes)%nat.
Proof.
  induction n as [| n IH]; intros [| lo [| hi rest]] Hn; simpl in *;
    try lia.
  specialize (IH rest ltac:(lia)). lia.
Qed.

Lemma concat_length_nonempty {A} (chunks : list (list A)) :
  Forall (fun c => c <> []) chunks ->
  (length chunks <= length (concat chunks))%nat.
Proof.
  induction 1 as [| c cs Hc _ IH]; simpl; [lia |].
  rewrite length_app. destruct c; [contradiction | simpl; lia].
Qed.

Section MoreAcquisition.
Context {float double : Type} `{FloatOps float}.

Local Abbreviation Spectrometer := (Spectrometer float double).

(** The read loop on a device that delivers the rest of the spectrum in
    chunks of whole pixels. *)
Lemma getSpectrum_loop_complete (ep bytesExpected timeoutMS : Z)
    (chunks : list (list Z)) :
  forall (fuel : nat) (totalBytesRead bytesLeftToRead : Z)
         (buf spectrum : list Z) (s : Spectrometer) (rest : list usb_reply),
    Forall (fun c => c <> []) chunks ->
    Forall (Forall (fun p => 0 <= p < 2 ^ 16)) chunks ->
    2 * Z.of_nat (length (concat chunks)) = bytesLeftToRead ->
    totalBytesRead + bytesLeftToRead = bytesExpected ->
    (length chunks <= fuel)%nat ->
    replies (udev s) = ((fun c => UsbData (encode_le c)) <$> chunks) ++ rest ->
    exists s',
      getSpectrum_loop fuel ep bytesExpected timeoutMS totalBytesRead
        bytesLeftToRead buf spectrum s
      = (Some (spectrum ++ concat chunks), s')
      /\ replies (udev s') = rest.
Proof.
  induction chunks as [| c cs IH];
    intros fuel total left buf spectrum s rest Hne Hrange Hleft Hsum Hfuel
      Hreplies.
  - simpl in *. exists s.
    destruct fuel; simpl;
      (destruct (Z.ltb_spec total bytesExpected); [lia |]);
      rewrite app_nil_r; split; (reflexivity || exact Hreplies).
  - pose proof (Forall_inv Hne) as Hc.
    pose proof (Forall_inv_tail Hne) as Hcs.
    pose proof (Forall_inv Hrange) as Hrc.
    pose proof (Forall_inv_tail Hrange) as Hrcs.
    simpl in Hleft, Hfuel, Hreplies. rewrite length_app in Hleft.
    assert (Hclen : (0 < length c)%nat) by (destruct c; [contradiction | simpl; lia]).
    destruct fuel as [| fuel]; [lia |].
    cbn [getSpectrum_loop].
    destruct (Z.ltb_spec total bytesExpected); [| lia].
    run_method. unfold usb_bulk_read, usb_exchange. rewrite Hreplies.
    cbv beta iota zeta.
    assert (Htake : take (Z.to_nat left) (encode_le c) = encode_le c)
      by (apply take_ge; rewrite encode_le_length; lia).
    rewrite Htake, take_overwrite, encode_le_length.
    destruct (Z.leb_spec (Z.of_nat (2 * length c)) 0); [lia |].
    replace (Z.rem (Z.of_nat (2 * length c)) 2) with 0
      by (rewrite Nat2Z.inj_mul, Z.mul_comm, Z.rem_mul; lia).
    cbn [Z.eqb negb].
    rewrite decode_pixels_encode_le by exact Hrc.
    match goal with
    | |- context [getSpectrum_loop fuel ep bytesExpected timeoutMS ?t ?l ?b ?sp ?st] =>
        destruct (IH fuel t l b sp st rest Hcs Hrcs ltac:(lia) ltac:(lia)
                    ltac:(lia) eq_refl) as (s' & E & Hr)
    end.
    exists s'. rewrite E, <- app_assoc. split; [reflexivity | exact Hr].
Qed.

(** A complete acquisition.  Whatever the device answers to ACQUIRE, when
    it then delivers the [pixels] values (two or more) as little-endian
    pairs, cut into chunks of whole pixels in any way, [getSpectrum] returns
    those values in order with the first replaced by the second, and has
    consumed exactly those replies. *)
Theorem getSpectrum_complete_read (s : Spectrometer) (acquire : usb_reply)
    (chunks : list (list Z)) (rest : list usb_reply) :
  2 <= pixels s < 2 ^ 30 ->
  Forall (fun c => c <> []) chunks ->
  Forall (Forall (fun p => 0 <= p < 2 ^ 16)) chunks ->
  Z.of_nat (length (concat chunks)) = pixels s ->
  replies (udev s)
  = acquire :: ((fun c => UsbData (encode_le c)) <$> chunks) ++ rest ->
  (getSpectrum s).1 = Spectrum (stomp_first (concat chunks))
  /\ replies (udev (getSpectrum s).2) = rest.
Proof.
  intros Hpixels Hne Hrange Hcount Hreplies.
  unfold getSpectrum. run_method.
  destruct (sendCmd_run 0xad 0 0 s) as (d & E & _ & Hr).
  rewrite E. cbn [fst snd]. rewrite Hreplies in Hr. simpl in Hr.
  assert (Hexp : int32 (pixels s * 2) = pixels s * 2).
  { unfold int32. rewrite Z.mod_small by lia. lia. }
  change (pixels (set_udev d s)) with (pixels s).
  rewrite Hexp.
  pose proof (concat_length_nonempty chunks Hne) as Hchunks.
  match goal with
  | |- context [getSpectrum_loop ?f ?ep ?e ?t ?tot ?l ?b ?sp ?st] =>
      destruct (getSpectrum_loop_complete ep e t chunks f tot l b sp st rest
                  Hne Hrange ltac:(lia) ltac:(lia) ltac:(lia) Hr)
        as (s' & Eloop & Hrest)
  end.
  rewrite Eloop. cbn [app].
  destruct (concat chunks) as [| p0 [| p1 more]] eqn:Hc; simpl in Hcount;
    try lia.
  simpl. split; [reflexivity | exact Hrest].
Qed.

(** The read loop never collects more pixels than the bytes it expects. *)
Lemma getSpectrum_loop_bound (ep bytesExpected timeoutMS : Z) (fuel : nat) :
  forall (totalBytesRead bytesLeftToRead : Z) (buf spectrum : list Z)
         (s : Spectrometer) (result : list Z),
    totalBytesRead + bytesLeftToRead = bytesExpected ->
    0 <= bytesLeftToRead ->
    2 * Z.of_nat (length spectrum) <= totalBytesRead ->
    (getSpectrum_loop fuel ep bytesExpected timeoutMS totalBytesRead
       bytesLeftToRead buf spectrum s).1 = Some result ->
    2 * Z.of_nat (length result) <= bytesExpected.
Proof.
  induction fuel as [| fuel IH];
    intros total left buf spectrum s result Hsum Hleft Hlen;
    cbn [getSpectrum_loop];
    destruct (Z.ltb_spec total bytesExpected);
    try (intros [= <-]; lia); try discriminate.
  run_method. unfold usb_bulk_read, usb_exchange.
  destruct (replies (udev s)) as [| [e | rx] rs]; cbv beta iota zeta;
    try (intros [= <-]; lia).
  set (got := take (Z.to_nat left) rx).
  assert (Hgot : Z.of_nat (length got) <= left)
    by (subst got; rewrite length_take; lia).
  destruct (Z.leb_spec (Z.of_nat (length got)) 0); [intros [= <-]; lia |].
  destruct (negb (Z.rem (Z.of_nat (length got)) 2 =? 0));
    [intros [= <-]; lia |].
  rewrite take_overwrite.
  apply IH; try lia.
  rewrite length_app.
  pose proof (decode_pixels_length (length got) got ltac:(lia)). lia.
Qed.

(** Whatever the device does, [getSpectrum] holds at most [pixels] values
    when it returns (or when it indexes past the end). *)
Lemma getSpectrum_holds_at_most_pixels (s : Spectrometer) :
  0 <= pixels s < 2 ^ 30 ->
  match (getSpectrum s).1 with
  | Spectrum spectrum | IndexPastEnd spectrum =>
      Z.of_nat (length spectrum) <= pixels s
  | LoopCutOff => False
  end.
Proof.
  intros Hpixels.
  unfold getSpectrum. run_method.
  destruct (sendCmd 173 0 0 None 0 s) as [rc s1].
  assert (Hexp : int32 (pixels s * 2) = pixels s * 2).
  { unfold int32. rewrite Z.mod_small by lia. lia. }
  rewrite Hexp.
  match goal with
  | |- context [getSpectrum_loop ?f ?ep ?e ?t ?tot ?l ?b ?sp ?st] =>
      pose proof (getSpectrum_loop_bound ep e t f tot l b sp st) as Hbound;
      pose proof (getSpectrum_loop_ends f ep e t tot l b sp st ltac:(lia))
        as [spectrum Hsome];
      destruct (getSpectrum_loop f ep e t tot l b sp st) as [r s2]
  end.
  cbn [fst] in Hbound, Hsome. subst r.
  specialize (Hbound spectrum ltac:(lia) ltac:(lia) ltac:(simpl; lia) eq_refl).
  destruct spectrum as [| p0 [| p1 more]]; simpl in *; lia.
Qed.

(** Whatever the device does, the vector [getSpectrum] returns has at most
    [pixels] values; so a [wp_get_spectrum] given room for [pixels] values
    never answers WP_ERROR_INSUFFICIENT_STORAGE.  Its answer is fixed by the
    acquisition: WP_ERROR with the caller's array untouched when the vector
    is empty, and otherwise WP_SUCCESS with the vector copied to the front
    of the array and the rest of the array untouched. *)
Theorem wp_get_spectrum_needs_room_for_pixels_only
    (driver : Driver float double) (specIndex : Z) (spec : Spectrometer)
    (out : list Z) (len : Z) :
  getSpectrometer driver specIndex = Some spec ->
  0 <= pixels spec < 2 ^ 30 ->
  pixels spec <= len <= Z.of_nat (length out) ->
  (forall spectrum,
     (getSpectrum spec).1 = Spectrum spectrum ->
     Z.of_nat (length spectrum) <= pixels spec
     /\ (wp_get_spectrum driver specIndex out len).1
        = Some (match spectrum with
                | [] => (WP_ERROR, out)
                | _ :: _ =>
                    (WP_SUCCESS, spectrum ++ drop (length spectrum) out)
                end))
  /\ (forall code out',
        (wp_get_spectrum driver specIndex out len).1 = Some (code, out') ->
        code = WP_SUCCESS \/ (code = WP_ERROR /\ out' = out)).
Proof.
  intros Hspec Hpixels Hlen.
  pose proof (getSpectrum_holds_at_most_pixels spec Hpixels) as Hbound.
  split.
  - intros spectrum E. rewrite E in Hbound. split; [exact Hbound |].
    unfold wp_get_spectrum. rewrite Hspec.
    destruct (getSpectrum spec) as [r spec']. cbn [fst] in E. subst r.
    destruct spectrum as [| p0 more]; [reflexivity |].
    rewrite copy_out_fits by (simpl in *; lia).
    reflexivity.
  - intros code out'. unfold wp_get_spectrum. rewrite Hspec.
    destruct (getSpectrum spec) as [[spectrum | spectrum |] spec'];
      cbn [fst] in *; try discriminate.
    destruct spectrum as [| p0 more]; [intros [= <- <-]; auto |].
    rewrite copy_out_fits by (simpl in *; lia).
    intros [= <- _]. left. reflexivity.
Qed.

End MoreAcquisition.

(** ** Runs of the theorems above *)

(** An ARM session asked for 2 bytes whose device sends 10: 8 come back. *)
Lemma getCmd_result_is_cut_to_request_witness :
  let s :=
    sample_spectrometer 0x4000 4 (sample_eeprom 10 20 true)
      [UsbData [1; 2; 3; 4; 5; 6; 7; 8; 9; 10]] in
  (getCmd 0xd7 0 0 2 s).1 = [1; 2; 3; 4; 5; 6; 7; 8].
Proof.
  cbv zeta.
  exact (proj1 (getCmd_result_is_cut_to_request 0xd7 0 0 2
                  (sample_spectrometer 0x4000 4 (sample_eeprom 10 20 true)
                     [UsbData [1; 2; 3; 4; 5; 6; 7; 8; 9; 10]])
                  [1; 2; 3; 4; 5; 6; 7; 8; 9; 10] [] eq_refl
                  ltac:(discriminate))).
Defined.

(** High gain on an InGaAs unit and on another one. *)
Lemma setHighGainMode_only_on_InGaAs_witness :
  let ingaas :=
    sample_spectrometer 0x2000 4 (sample_eeprom 10 20 true) [UsbData []] in
  let other :=
    sample_spectrometer 0x1000 4 (sample_eeprom 10 20 true) [UsbData []] in
  transfers (udev (setHighGainMode true ingaas).2)
  = [command ingaas 0xeb 1 0]
  /\ setHighGainMode true other = (false, other).
Proof.
  cbv zeta. split.
  - exact (proj2 (proj2 (setHighGainMode_only_on_InGaAs true
                           (sample_spectrometer 0x2000 4
                              (sample_eeprom 10 20 true) [UsbData []]))
                    eq_refl)).
  - exact (proj1 (setHighGainMode_only_on_InGaAs true
                    (sample_spectrometer 0x1000 4 (sample_eeprom 10 20 true)
                       [UsbData []]))
             ltac:(discriminate)).
Defined.

(** A setpoint of 15 degrees on a unit calibrated for 10..20 whose device
    fails the transfer, and a setpoint of 25. *)
Lemma setDetectorTECSetpointDegC_range_and_gate_witness :
  let s :=
    sample_spectrometer 0x1000 4 (sample_eeprom 10 20 true) [UsbError 5] in
  (detectorTECSetpointHasBeenSet (setDetectorTECSetpointDegC 15 s).2 = true
   /\ (setDetectorTECSetpointDegC 15 s).1 = true)
  /\ setDetectorTECSetpointDegC 25 s = (false, s).
Proof.
  cbv zeta.
  pose proof (setDetectorTECSetpointDegC_range_and_gate 15
                (sample_spectrometer 0x1000 4 (sample_eeprom 10 20 true)
                   [UsbError 5])) as [_ Hin].
  pose proof (setDetectorTECSetpointDegC_range_and_gate 25
                (sample_spectrometer 0x1000 4 (sample_eeprom 10 20 true)
                   [UsbError 5])) as [Hout _].
  split.
  - destruct (Hin eq_refl ltac:(split; discriminate)) as (Hret & Hgate & _).
    split; [exact Hgate | exact Hret].
  - apply Hout. right. right. reflexivity.
Defined.

(** Two enables in a row on a cooled unit: the second sends one transfer. *)
Lemma setTECEnable_defaults_once_witness :
  let s :=
    sample_spectrometer 0x1000 4 (sample_eeprom 10 20 true)
      [UsbData []; UsbData []; UsbData []] in
  transfers (udev (setTECEnable false (setTECEnable true s).2).2)
  = [command s 0xd8 2500 0; command s 0xd6 1 0; command s 0xd6 0 0].
Proof.
  cbv zeta.
  exact (proj2 (setTECEnable_defaults_once true false
                  (sample_spectrometer 0x1000 4 (sample_eeprom 10 20 true)
                     [UsbData []; UsbData []; UsbData []])
                  eq_refl ltac:(discriminate))).
Defined.

(** The gain 1.5 is 384/256: the word is 384 (0x0180). *)
Lemma gain_on_the_grid_is_exact_witness :
  gain_word (3 # 2) = 0x0180
  /\ (gain_decode (gain_word (3 # 2)) == 3 # 2)%Q.
Proof.
  pose proof (gain_on_the_grid_is_exact (3 # 2) 384
                (sample_spectrometer 0x1000 4 (sample_eeprom 10 20 true) [])
                ltac:(discriminate) ltac:(reflexivity) ltac:(reflexivity))
    as (Hword & Hdecode & _).
  split; [exact Hword | exact Hdecode].
Defined.

Lemma gain_word_is_monotone_witness :
  gain_word (1 # 2) <= gain_word (3 # 2).
Proof.
  exact (gain_word_is_monotone (1 # 2) (3 # 2) ltac:(discriminate)
           ltac:(discriminate) ltac:(reflexivity)).
Defined.

(** The bytes 0x12 0x34 read as 0x1234; a third byte changes nothing. *)
Lemma getDetectorTemperatureRaw_big_endian_witness :
  (getDetectorTemperatureRaw 3
     (sample_spectrometer 0x1000 4 (sample_eeprom 10 20 true)
        [UsbData [0x12; 0x34; 0x56]])).1 = 0x1234.
Proof.
  exact (proj2 (getDetectorTemperatureRaw_big_endian 3
                  (sample_spectrometer 0x1000 4 (sample_eeprom 10 20 true)
                     [UsbData [0x12; 0x34; 0x56]]))
           0x12 0x34 [0x56] [] eq_refl ltac:(discriminate)
           ltac:(split; [discriminate | reflexivity])
           ltac:(split; [discriminate | reflexivity])).
Defined.

(** The bytes 4 3 2 1 are version 1.2.3.4; three bytes are no version. *)
Lemma getFirmwareVersion_needs_four_bytes_witness :
  (getFirmwareVersion 4 false
     (sample_spectrometer 0x1000 4 (sample_eeprom 10 20 true)
        [UsbData [4; 3; 2; 1]])).1 = "1.2.3.4"%string
  /\ (getFirmwareVersion 4 false
        (sample_spectrometer 0x1000 4 (sample_eeprom 10 20 true)
           [UsbData [4; 3; 2]])).1 = EmptyString.
Proof.
  split.
  - exact (proj1 (proj2 (getFirmwareVersion_needs_four_bytes 4 false
                           (sample_spectrometer 0x1000 4
                              (sample_eeprom 10 20 true)
                              [UsbData [4; 3; 2; 1]]))
                    4 3 2 1 [] eq_refl)).
  - apply (proj1 (getFirmwareVersion_needs_four_bytes 4 false
                    (sample_spectrometer 0x1000 4 (sample_eeprom 10 20 true)
                       [UsbData [4; 3; 2]]))).
    vm_compute. reflexivity.
Defined.

(** Three proxies, looked up at -1, 1 and 3, with a 64-bit [size_t]. *)
Lemma Proxy_getSpectrometer_bounds_witness :
  Proxy_getSpectrometer 64 [10; 20; 30] (-1) = None
  /\ Proxy_getSpectrometer 64 [10; 20; 30] 1 = Some 20
  /\ Proxy_getSpectrometer 64 [10; 20; 30] 3 = None.
Proof.
  split; [| split].
  - apply (proj2 (Proxy_getSpectrometer_bounds 64 [10; 20; 30] (-1)
                    ltac:(discriminate)
                    ltac:(split; [discriminate | reflexivity])
                    ltac:(reflexivity))).
    left. reflexivity.
  - exact (proj1 (proj1 (Proxy_getSpectrometer_bounds 64 [10; 20; 30] 1
                           ltac:(discriminate)
                           ltac:(split; [discriminate | reflexivity])
                           ltac:(reflexivity))
                    ltac:(split; [discriminate | reflexivity]))).
  - apply (proj2 (Proxy_getSpectrometer_bounds 64 [10; 20; 30] 3
                    ltac:(discriminate)
                    ltac:(split; [discriminate | reflexivity])
                    ltac:(reflexivity))).
    right. discriminate.
Defined.

(** An uncooled unit of another family: a gain of 300, high gain and the
    TEC enable are refused; a gain of 1 is accepted, and so is a NaN. *)
Lemma wp_settors_refuse_exactly_witness :
  let s :=
    sample_spectrometer 0x1000 4 (sample_eeprom 10 20 false) [UsbData []] in
  (wp_set_detector_gain (sample_driver s) 0 (300 # 1)).1 = WP_ERROR
  /\ (wp_set_high_gain_mode (sample_driver s) 0 1).1 = WP_ERROR
  /\ (wp_set_tec_enable (sample_driver s) 0 1).1 = WP_ERROR
  /\ (wp_set_detector_gain (sample_driver s) 0 (1 # 1)).1 = WP_SUCCESS
  /\ (wp_set_detector_gain (sample_driver s) 0 NaN).1 = WP_SUCCESS.
Proof.
  cbv zeta.
  set (s := sample_spectrometer 0x1000 4 (sample_eeprom 10 20 false)
              [UsbData []]).
  destruct (wp_settors_refuse_exactly (sample_driver s) 0 s (300 # 1) 1
              eq_refl) as ((Hgain & _ & _) & Hhigh & Htec).
  destruct (wp_settors_refuse_exactly (sample_driver s) 0 s (1 # 1) 1
              eq_refl) as ((Hgain1 & _ & _) & _ & _).
  destruct (wp_settors_refuse_exactly (sample_driver s) 0 s NaN 1
              eq_refl) as ((Hnan & _ & _) & _ & _).
  repeat split; assumption.
Defined.

(** Wavenumbers of a unit without excitation, and of one with. *)
Lemma wp_get_wavenumbers_needs_excitation_witness :
  let plain := sample_spectrometer 0x1000 4 sample_eeprom_no_laser [] in
  let raman := sample_spectrometer 0x1000 4 (sample_eeprom 10 20 true) [] in
  wp_get_wavenumbers (sample_driver plain) 0 [0; 0; 0; 0]%Q 4
  = (WP_ERROR_NO_LASER, [0; 0; 0; 0]%Q)
  /\ wp_get_wavenumbers (sample_driver raman) 0 [0; 0; 0; 0]%Q 4
     = (WP_SUCCESS, wavenumbers raman).
Proof.
  cbv zeta. split.
  - apply (proj1 (wp_get_wavenumbers_needs_excitation
                    (sample_driver
                       (sample_spectrometer 0x1000 4 sample_eeprom_no_laser []))
                    0 (sample_spectrometer 0x1000 4 sample_eeprom_no_laser [])
                    [0; 0; 0; 0]%Q 4 eq_refl)).
    discriminate.
  - apply (proj1 (proj2 (wp_get_wavenumbers_needs_excitation
                           (sample_driver
                              (sample_spectrometer 0x1000 4
                                 (sample_eeprom 10 20 true) []))
                           0
                           (sample_spectrometer 0x1000 4
                              (sample_eeprom 10 20 true) [])
                           [0; 0; 0; 0]%Q 4 eq_refl)
                    ltac:(reflexivity)));
      vm_compute; discriminate.
Defined.

(** The two fields of the sample record, fetched with the count 2. *)
Lemma wp_get_eeprom_with_the_field_count_witness :
  let driver :=
    sample_driver (sample_spectrometer 0x1000 4 (sample_eeprom 10 20 true) []) in
  wp_get_eeprom_field_count driver 0 = 2
  /\ wp_get_eeprom driver 0 [""; ""; ""]%string [""; ""; ""]%string 2
     = (WP_SUCCESS,
        (["Model"; "SerialNumber"; ""]%string,
         ["WP-785"; "WP-00123"; ""]%string)).
Proof.
  cbv zeta.
  destruct (wp_get_eeprom_with_the_field_count
              (sample_driver
                 (sample_spectrometer 0x1000 4 (sample_eeprom 10 20 true) []))
              0 (sample_spectrometer 0x1000 4 (sample_eeprom 10 20 true) [])
              [""; ""; ""]%string [""; ""; ""]%string eq_refl)
    as (Hcount & Hfits & _).
  split; [exact Hcount |].
  exact (Hfits ltac:(vm_compute; lia) ltac:(vm_compute; lia)).
Defined.

(** The field "Model" asked for as "MODEL" into a buffer of eight, and a
    field that is not there. *)
Lemma wp_get_eeprom_field_lookup_witness :
  let driver :=
    sample_driver (sample_spectrometer 0x1000 4 (sample_eeprom 10 20 true) []) in
  let buffer := replicate 8 "x"%char in
  wp_get_eeprom_field sample_toLower sample_strncpy_s driver 0 "MODEL"
    buffer 8
  = Some (WP_SUCCESS, ["W"; "P"; "-"; "7"; "8"; "5"; Ascii.zero; "x"]%char)
  /\ wp_get_eeprom_field sample_toLower sample_strncpy_s driver 0 "Gain"
       buffer 8
     = Some (WP_ERROR, buffer).
Proof.
  cbv zeta. split.
  - exact (proj2 (wp_get_eeprom_field_lookup sample_toLower sample_strncpy_s
                    (sample_driver
                       (sample_spectrometer 0x1000 4
                          (sample_eeprom 10 20 true) []))
                    0 (sample_spectrometer 0x1000 4 (sample_eeprom 10 20 true) [])
                    "MODEL" (replicate 8 "x"%char) 8 eq_refl)
             [] [("SerialNumber"%string, "WP-00123"%string)]
             "Model"%string "WP-785"%string eq_refl
             ltac:(constructor) eq_refl).
  - apply (proj1 (wp_get_eeprom_field_lookup sample_toLower sample_strncpy_s
                    (sample_driver
                       (sample_spectrometer 0x1000 4
                          (sample_eeprom 10 20 true) []))
                    0 (sample_spectrometer 0x1000 4 (sample_eeprom 10 20 true) [])
                    "Gain" (replicate 8 "x"%char) 8 eq_refl)).
    repeat constructor; vm_compute; discriminate.
Defined.

(** Closing the one open session. *)
Lemma wp_close_spectrometer_answers_1_witness :
  (wp_close_spectrometer usb_release_interface_ok usb_close_ok
     (sample_driver
        (sample_spectrometer 0x1000 4 (sample_eeprom 10 20 true) []))
     0).1 = 1.
Proof.
  exact (wp_close_spectrometer_answers_1 usb_release_interface_ok usb_close_ok
           (sample_driver
              (sample_spectrometer 0x1000 4 (sample_eeprom 10 20 true) []))
           0 (sample_spectrometer 0x1000 4 (sample_eeprom 10 20 true) [])
           eq_refl).
Defined.

(** A device that fails the version request. *)
Lemma wp_get_versions_without_answer_witness :
  let driver :=
    sample_driver
      (sample_spectrometer 0x1000 4 (sample_eeprom 10 20 true) [UsbError 5]) in
  (wp_get_firmware_version 4 false driver 0 ["x"; "x"]%char 2).1
  = (WP_ERROR, ["x"; "x"]%char)
  /\ (wp_get_fpga_version 4 false driver 0 ["x"; "x"]%char 2).1
     = (WP_ERROR, ["x"; "x"]%char).
Proof.
  cbv zeta.
  apply (wp_get_versions_without_answer 4 false
           (sample_driver
              (sample_spectrometer 0x1000 4 (sample_eeprom 10 20 true)
                 [UsbError 5]))
           0
           (sample_spectrometer 0x1000 4 (sample_eeprom 10 20 true)
              [UsbError 5])
           ["x"; "x"]%char 2 eq_refl).
  intros bytes Hhead. discriminate Hhead.
Defined.

(** Four pixels in chunks of one and three, after a failed ACQUIRE. *)
Lemma getSpectrum_complete_read_witness :
  (getSpectrum
     (sample_spectrometer 0x1000 4 (sample_eeprom 10 20 true)
        [UsbError 5; UsbData [10; 0]; UsbData [20; 0; 44; 1; 40; 0]])).1
  = Spectrum [20; 20; 300; 40].
Proof.
  exact (proj1 (getSpectrum_complete_read
                  (sample_spectrometer 0x1000 4 (sample_eeprom 10 20 true)
                     [UsbError 5; UsbData [10; 0];
                      UsbData [20; 0; 44; 1; 40; 0]])
                  (UsbError 5) [[10]; [20; 300; 40]] []
                  ltac:(split; [discriminate | reflexivity])
                  ltac:(repeat constructor; discriminate)
                  ltac:(repeat constructor; (discriminate || reflexivity))
                  eq_refl eq_refl)).
Defined.

(** Room for four pixels.  A partial acquisition of two pixels out of four
    is copied to the front of the array with WP_SUCCESS; an acquisition
    whose first read fails gives WP_ERROR and leaves the array alone. *)
Lemma wp_get_spectrum_needs_room_for_pixels_only_witness :
  let partial :=
    sample_spectrometer 0x1000 4 (sample_eeprom 10 20 true)
      [UsbData []; UsbData [10; 0; 20; 0]; UsbError 5] in
  let silent :=
    sample_spectrometer 0x1000 4 (sample_eeprom 10 20 true)
      [UsbData []; UsbError 5] in
  (wp_get_spectrum (sample_driver partial) 0 [7; 7; 7; 7] 4).1
  = Some (WP_SUCCESS, [20; 20; 7; 7])
  /\ (wp_get_spectrum (sample_driver silent) 0 [7; 7; 7; 7] 4).1
     = Some (WP_ERROR, [7; 7; 7; 7]).
Proof.
  cbv zeta. split.
  - exact (proj2 (proj1 (wp_get_spectrum_needs_room_for_pixels_only
                    (sample_driver
                       (sample_spectrometer 0x1000 4 (sample_eeprom 10 20 true)
                          [UsbData []; UsbData [10; 0; 20; 0]; UsbError 5]))
                    0
                    (sample_spectrometer 0x1000 4 (sample_eeprom 10 20 true)
                       [UsbData []; UsbData [10; 0; 20; 0]; UsbError 5])
                    [7; 7; 7; 7] 4 eq_refl
                    ltac:(split; [discriminate | reflexivity])
                    ltac:(split; discriminate))
                  [20; 20] eq_refl)).
  - exact (proj2 (proj1 (wp_get_spectrum_needs_room_for_pixels_only
                    (sample_driver
                       (sample_spectrometer 0x1000 4 (sample_eeprom 10 20 true)
                          [UsbData []; UsbError 5]))
                    0
                    (sample_spectrometer 0x1000 4 (sample_eeprom 10 20 true)
                       [UsbData []; UsbError 5])
                    [7; 7; 7; 7] 4 eq_refl
                    ltac:(split; [discriminate | reflexivity])
                    ltac:(split; discriminate))
                  [] eq_refl)).
Defined.
